(** * ResNet-50 notebooks: graph construction and name binding

    A shallow embedding of the two notebooks of the repository,
    [ResNet-implementation.ipynb] (module [Impl]) and the overview notebook
    (module [Overview]).  The notebooks only wire layers of the Keras
    functional API together and run cells in a kernel, so the embedding
    has these parts:

    - [Py]: exceptions and outcomes of the Python runtime;
    - [Keras]: the functional API as a graph builder.  Calling a layer on
      tensors appends a node to the graph and returns the node's output
      tensor; output shapes follow the shape rules of the layers;
    - [Run]: running a function body: local frames with unbound slots,
      tuple unpacking, calls through global names;
    - [Kernel]: the global namespace of a notebook kernel and its cells;
    - [Impl], [Overview]: the functions and cells of the notebooks,
      statement by statement. *)

From stdpp Require Import gmap strings list pretty.
From Stdlib Require Import ZArith.

Local Open Scope Z_scope.

(** ** Python runtime fragment *)

Module Py.

(** The exceptions the notebooks' own statements can raise. *)
Inductive exn : Type :=
| NameError (name : string)          (* name 'x' is not defined *)
| UnboundLocalError (name : string)  (* local variable 'x' referenced before assignment *)
| UnpackError (expected got : nat)   (* ValueError of a tuple assignment *)
| TypeError (msg : string)
| ValueError (msg : string)
| IndexError (msg : string)
| KeyError (key : string).

(** [UnboundLocalError] is a subclass of [NameError]. *)
Definition is_NameError (e : exn) : bool :=
  match e with
  | NameError _ | UnboundLocalError _ => true
  | _ => false
  end.

(** [ValueError] raised by unpacking a sequence of the wrong length. *)
Definition is_unpack_error (e : exn) : bool :=
  match e with
  | UnpackError _ _ => true
  | _ => false
  end.

Inductive outcome (A : Type) : Type :=
| Return (a : A)
| Raise (e : exn).
Arguments Return {A} a.
Arguments Raise {A} e.

Definition returns {A} (o : outcome A) : bool :=
  match o with Return _ => true | Raise _ => false end.

(** [str] on integers. *)
Definition str (z : Z) : string := pretty z.

End Py.

Export Py.

(** ** Keras functional API as a graph builder *)

Module Keras.

Inductive pad_mode : Type := valid | same.

(** [glorot_uniform(seed=...)]; [None] is the unseeded default. *)
Inductive initializer : Type :=
| glorot_uniform (seed : option Z).

(** Layer constructors with the arguments the notebooks pass.  A [name]
    of [None] is a layer the notebook leaves unnamed. *)
Inductive layer : Type :=
| InputLayer (shape : list Z)
| ZeroPadding2D (padding : Z * Z)
| Conv2D (filters : Z) (kernel_size strides : Z * Z) (padding : pad_mode)
         (name : option string) (kernel_initializer : initializer)
| BatchNormalization (axis : Z) (name : option string)
| Activation (activation : string)
| MaxPooling2D (pool_size strides : Z * Z)
| AveragePooling2D (pool_size : Z * Z) (padding : pad_mode)
| Flatten
| Dense (units : Z) (activation : string) (name : option string)
        (kernel_initializer : initializer)
| Add.

(** A symbolic tensor is the output of a node; nodes are numbered in
    creation order. *)
Definition tensor : Type := nat.
Bind Scope nat_scope with tensor.

Record node : Type := Node { n_layer : layer; n_inputs : list tensor }.

(** The graph, newest node first: the node at the head of a graph [g]
    has number [length (tail g)]. *)
Definition graph : Type := list node.

Definition node_at (g : graph) (t : tensor) : option node :=
  rev g !! t.

(** *** Shape rules (channels_last, batch axis omitted)

    The rules give the shape of a layer's output from the shapes of its
    inputs.  [Add] sums tensors of one shape, which is the shape of the
    sum; the statements about a sum give the shapes of both summands. *)

Definition conv_output_length (input_length filter_size : Z)
           (padding : pad_mode) (stride : Z) : Z :=
  let output_length :=
    match padding with
    | same => input_length
    | valid => input_length - filter_size + 1
    end in
  (output_length + stride - 1) / stride.

Definition output_shape (l : layer) (inputs : list (list Z)) : list Z :=
  match l, inputs with
  | InputLayer shape, _ => shape
  | ZeroPadding2D (ph, pw), [[h; w; c]] => [h + 2 * ph; w + 2 * pw; c]
  | Conv2D filters (kh, kw) (sh, sw) padding _ _, [[h; w; _]] =>
      [conv_output_length h kh padding sh;
       conv_output_length w kw padding sw; filters]
  | BatchNormalization _ _, [s] => s
  | Activation _, [s] => s
  | MaxPooling2D (ph, pw) (sh, sw), [[h; w; c]] =>
      [conv_output_length h ph valid sh;
       conv_output_length w pw valid sw; c]
  | AveragePooling2D (ph, pw) padding, [[h; w; c]] =>
      [conv_output_length h ph padding ph;
       conv_output_length w pw padding pw; c]
  | Flatten, [s] => [foldr Z.mul 1 s]
  | Dense units _ _ _, [s] => take (length s - 1) s ++ [units]
  | Add, s :: _ => s
  | _, _ => []
  end.

(** The shapes of all tensors of a graph, newest first like the graph. *)
Fixpoint shapes (g : graph) : list (list Z) :=
  match g with
  | [] => []
  | n :: g' =>
      let ss := shapes g' in
      output_shape (n_layer n)
        ((fun t => default [] (rev ss !! t)) <$> n_inputs n) :: ss
  end.

Definition shape_of (g : graph) (t : tensor) : list Z :=
  default [] (rev (shapes g) !! t).

(** [Model(inputs, outputs, name)]: the layers on which [outputs]
    depends, in creation order. *)
Record model : Type := Model {
  m_name : string;
  m_inputs : tensor;
  m_outputs : tensor;
  m_nodes : list (tensor * node)
}.

Fixpoint ancestors (g : graph) (needed : list tensor)
  : list (tensor * node) :=
  match g with
  | [] => []
  | n :: g' =>
      let t := length g' in
      if bool_decide (t ∈ needed)
      then ancestors g' (n_inputs n ++ needed) ++ [(t, n)]
      else ancestors g' needed
  end.

End Keras.

Export Keras.

(** ** Running Python code *)

Module Run.

(** Code that reads and writes a state [S] and returns or raises.  An
    exception leaves the state as it was when it was raised. *)
Definition M (S A : Type) : Type := S -> outcome A * S.

Definition ret {S A} (a : A) : M S A := fun st => (Return a, st).

Definition bind {S A B} (m : M S A) (k : A -> M S B) : M S B :=
  fun st =>
    match m st with
    | (Return a, st') => k a st'
    | (Raise e, st') => (Raise e, st')
    end.

Definition raise {S A} (e : exn) : M S A := fun st => (Raise e, st).

#[export] Instance M_ret {S} : MRet (M S) := @ret S.
#[export] Instance M_bind {S} : MBind (M S) := fun A B k m => bind m k.

(** How the stage-assembly function calls a block function:
    [callee(X, f, filters, stage, block, s)], with [s] absent when the
    call does not pass it. *)
Record call_args : Type := Args {
  a_X : tensor;
  a_f : Z;
  a_filters : list Z;
  a_stage : Z;
  a_block : string;
  a_s : option Z
}.

(** A block function object: run on a graph, it extends the graph and
    returns or raises. *)
Definition callable : Type := call_args -> M graph tensor.

(** The state a function body runs in: the frame of its tensor-valued
    local variables (a name absent from the frame is an unbound local),
    the graph under construction, and the calls made so far through
    global names, oldest first. *)
Record state : Type := State {
  locals : gmap string tensor;
  nodes : graph;
  trace : list (string * call_args)
}.

(** Reading a local variable: an unbound slot raises. *)
Definition load (x : string) : M state tensor :=
  fun st =>
    match locals st !! x with
    | Some t => (Return t, st)
    | None => (Raise (UnboundLocalError x), st)
    end.

Definition store (x : string) (t : tensor) : M state unit :=
  fun st => (Return tt, State (<[x := t]> (locals st)) (nodes st) (trace st)).

(** [layer(inputs)]: a new node; its output is the new tensor. *)
Definition apply_layer (l : layer) (inputs : list tensor) : M state tensor :=
  fun st =>
    (Return (length (nodes st)),
     State (locals st) (Node l inputs :: nodes st) (trace st)).

Definition get_nodes : M state graph := fun st => (Return (nodes st), st).

(** [F1, F2, F3 = filters] *)
Definition unpack3 {S} (filters : list Z) : M S (Z * Z * Z) :=
  match filters with
  | [F1; F2; F3] => ret (F1, F2, F3)
  | _ => raise (UnpackError 3 (length filters))
  end.

(** Reading a global name that a function body calls: the name is
    looked up when the call is reached. *)
Definition load_global (G : gmap string callable) (name : string)
  : M state callable :=
  fun st =>
    match G !! name with
    | Some fn => (Return fn, st)
    | None => (Raise (NameError name), st)
    end.

(** The call itself: the callee runs on the caller's graph, in a frame
    of its own. *)
Definition invoke (name : string) (fn : callable) (args : call_args)
  : M state tensor :=
  fun st =>
    let '(r, g) := fn args (nodes st) in
    (r, State (locals st) g (trace st ++ [(name, args)])).

(** [def]: the body runs in a fresh frame holding the tensor
    parameters; the caller gets the result and the extended graph. *)
Definition def {A} (params : gmap string tensor) (body : M state A)
  : M graph A :=
  fun g =>
    let '(r, st) := body (State params g []) in (r, nodes st).

(** Statement forms of the notebooks. *)

(** [dst = layer(src)] and [dst = layer([src1, src2])]: the operands
    are read left to right, then the layer is called, then [dst] is
    bound. *)
Definition assign (dst : string) (l : layer) (srcs : list string)
  : M state unit :=
  xs ← mapM load srcs;
  t ← apply_layer l xs;
  store dst t.

(** [dst = src] *)
Definition assign_var (dst src : string) : M state unit :=
  x ← load src;
  store dst x.

(** [dst = name(src, ...)] for a block function [name]; [rest] gives
    the other arguments. *)
Definition assign_block (G : gmap string callable) (dst name src : string)
           (rest : tensor -> call_args) : M state unit :=
  fn ← load_global G name;
  x ← load src;
  t ← invoke name fn (rest x);
  store dst t.

(** [Model(inputs = src_in, outputs = src_out, name = name)] *)
Definition new_model (src_in src_out : string) (name : string)
  : M state model :=
  i ← load src_in;
  o ← load src_out;
  g ← get_nodes;
  mret (Model name i o (ancestors g [o])).

End Run.

Export Run.

(** ** The notebook kernel *)

Module Kernel.

(** The values the cells bind to global names. *)
Inductive pyval : Type :=
| VInt (z : Z)
| VTuple (zs : list Z)                       (* a tuple of ints *)
| VModule (qualname : string)                (* an imported module or name *)
| VArray (shape : list Z) (dtype : string)   (* an ndarray *)
| VBlockFunction (fn : callable)
| VModelFunction (fn : gmap string callable -> list Z -> Z -> M graph model)
| VModel (m : model)
| VHistory (keys : list string).             (* History.history's keys *)

(** The kernel's state: its global namespace, the framework's graph,
    and the values displayed so far, oldest first. *)
Record kernel : Type := Kernel {
  globals : gmap string pyval;
  k_graph : graph;
  displayed : list pyval
}.

(** A kernel that has run no cell. *)
Definition fresh : kernel := Kernel ∅ [] [].

Definition gload (x : string) : M kernel pyval :=
  fun k =>
    match globals k !! x with
    | Some v => (Return v, k)
    | None => (Raise (NameError x), k)
    end.

Definition gstore (x : string) (v : pyval) : M kernel unit :=
  fun k => (Return tt, Kernel (<[x := v]> (globals k)) (k_graph k) (displayed k)).

(** A cell whose last statement is an expression shows its value; no
    name of the notebook is bound to it. *)
Definition display (v : pyval) : M kernel unit :=
  fun k => (Return tt, Kernel (globals k) (k_graph k) (displayed k ++ [v])).

Definition gload_int (x : string) : M kernel Z :=
  v ← gload x;
  match v with
  | VInt z => mret z
  | _ => raise (TypeError ("an integer is required: " +:+ x))
  end.

Definition gload_array (x : string) : M kernel (list Z * string) :=
  v ← gload x;
  match v with
  | VArray shape dtype => mret (shape, dtype)
  | _ => raise (TypeError ("not an array: " +:+ x))
  end.

Definition gload_model (x : string) : M kernel model :=
  v ← gload x;
  match v with
  | VModel m => mret m
  | _ => raise (TypeError ("not a model: " +:+ x))
  end.

(** [import module as name], [from module import name] *)
Definition import_as (module name : string) : M kernel unit :=
  gstore name (VModule module).

Definition from_import (module : string) (names : list string)
  : M kernel unit :=
  mapM (fun n => gstore n (VModule (module +:+ "." +:+ n))) names;;
  mret tt.

(** The block functions bound in the namespace when a call is made. *)
Definition block_functions_of (gl : gmap string pyval)
  : gmap string callable :=
  omap (fun v => match v with VBlockFunction fn => Some fn | _ => None end) gl.

(** Calling a model function from a cell: the body extends the
    framework's graph and resolves the block functions it calls in the
    namespace as it is at the call. *)
Definition call_model_function (f : pyval) (input_shape : list Z)
           (classes : Z) : M kernel model :=
  match f with
  | VModelFunction fn =>
      fun k =>
        let '(r, g) :=
          fn (block_functions_of (globals k)) input_shape classes (k_graph k) in
        (r, Kernel (globals k) g (displayed k))
  | _ => raise (TypeError "object is not callable")
  end.

(** *** numpy and Keras entry points the cells call *)

(** [a.shape[0]] *)
Definition dim0 (shape : list Z) : M kernel Z :=
  match shape with
  | n :: _ => mret n
  | [] => raise (IndexError "tuple index out of range")
  end.

(** [a.reshape(shape)]: the sizes must agree. *)
Definition reshape (a : list Z * string) (shape : list Z)
  : M kernel pyval :=
  if bool_decide (foldr Z.mul 1 a.1 = foldr Z.mul 1 shape)
  then mret (VArray shape a.2)
  else raise (ValueError "cannot reshape array").

(** [a /= 255]: true division in place needs a floating dtype. *)
Definition idiv (a : list Z * string) : M kernel pyval :=
  if bool_decide (a.2 = "float32")
  then mret (VArray a.1 a.2)
  else raise (TypeError "Cannot cast ufunc true_divide output").

(** [mnist.load_data()]: 60000 training and 10000 test images of
    28 x 28 bytes with their labels. *)
Definition mnist_load_data : (pyval * pyval) * (pyval * pyval) :=
  ((VArray [60000; 28; 28] "uint8", VArray [60000] "uint8"),
   (VArray [10000; 28; 28] "uint8", VArray [10000] "uint8")).

(** [keras.utils.to_categorical(y, num_classes)] *)
Definition to_categorical (y : list Z * string) (num_classes : Z) : pyval :=
  VArray (y.1 ++ [num_classes]) "float32".

(** [model.fit(x, y, ...)] without validation data: the sample shapes
    must be those of the model's input and output; the history holds
    the training loss and the compiled metric. *)
Definition fit (m : model) (x y : list Z * string) : M kernel pyval :=
  fun k =>
    if bool_decide (tail x.1 = shape_of (k_graph k) (m_inputs m)
                    ∧ tail y.1 = shape_of (k_graph k) (m_outputs m))
    then (Return (VHistory ["loss"; "acc"]), k)
    else (Raise (ValueError "Error when checking input or target"), k).

(** [h.history[key]] *)
Definition history_item (h : pyval) (key : string) : M kernel unit :=
  match h with
  | VHistory keys =>
      if bool_decide (key ∈ keys) then mret tt else raise (KeyError key)
  | _ => raise (TypeError "object has no attribute 'history'")
  end.

(** Running cells one after the other from the top; the run stops at
    the first cell that raises, and tells which one. *)
Fixpoint run_cells (cells : list (M kernel unit)) (i : nat) (k : kernel)
  : option (nat * exn) * kernel :=
  match cells with
  | [] => (None, k)
  | c :: rest =>
      match c k with
      | (Return _, k') => run_cells rest (S i) k'
      | (Raise e, k') => (Some (i, e), k')
      end
  end.

End Kernel.

Export Kernel.

(** ** ResNet-implementation.ipynb *)

Module Impl.

Definition residual_block_body (f : Z) (filters : list Z) (stage : Z)
           (block : string) : M state tensor :=
  (* Defining name basis *)
  let conv_name_base := "res" +:+ str stage +:+ block +:+ "_branch" in
  let bn_name_base := "bn" +:+ str stage +:+ block +:+ "_branch" in
  (* Retrieve Filters *)
  '(F1, F2, F3) ← unpack3 filters;
  (* Save the input value *)
  assign_var "X_shortcut" "X";;
  (* First component of main path *)
  assign "X" (Conv2D F1 (1, 1) (1, 1) valid (Some (conv_name_base +:+ "2a"))
                (glorot_uniform (Some 0))) ["X"];;
  assign "X" (BatchNormalization 3 (Some (bn_name_base +:+ "2a"))) ["X"];;
  assign "X" (Activation "relu") ["X"];;
  (* Second component of main path *)
  assign "X" (Conv2D F2 (f, f) (1, 1) same (Some (conv_name_base +:+ "2b"))
                (glorot_uniform (Some 0))) ["X"];;
  assign "X" (BatchNormalization 3 (Some (bn_name_base +:+ "2b"))) ["X"];;
  assign "X" (Activation "relu") ["X"];;
  (* Third component of main path *)
  assign "X" (Conv2D F3 (1, 1) (1, 1) valid (Some (conv_name_base +:+ "2c"))
                (glorot_uniform (Some 0))) ["X"];;
  assign "X" (BatchNormalization 3 (Some (bn_name_base +:+ "2c"))) ["X"];;
  (* Final step: Add shortcut value to main path, and pass it through a
     RELU activation *)
  assign "X" Add ["X"; "X_shortcut"];;
  assign "X" (Activation "relu") ["X"];;
  load "X".

(** [def residual_block(X, f, filters, stage, block)]: no parameter
    [s]. *)
Definition residual_block : callable :=
  fun a =>
    match a_s a with
    | Some _ =>
        raise (TypeError "residual_block() got an unexpected keyword argument 's'")
    | None =>
        def {["X" := a_X a]}
          (residual_block_body (a_f a) (a_filters a) (a_stage a) (a_block a))
    end.

Definition convolutional_block_body (f : Z) (filters : list Z) (stage : Z)
           (block : string) (s : Z) : M state tensor :=
  (* Defining name basis *)
  let conv_name_base := "res" +:+ str stage +:+ block +:+ "_branch" in
  let bn_name_base := "bn" +:+ str stage +:+ block +:+ "_branch" in
  (* Retrieve Filters *)
  '(F1, F2, F3) ← unpack3 filters;
  (* Save the input value *)
  assign_var "X_shortcut" "X";;
  (* First component of main path *)
  assign "X" (Conv2D F1 (1, 1) (s, s) valid (Some (conv_name_base +:+ "2a"))
                (glorot_uniform (Some 0))) ["X"];;
  assign "X" (BatchNormalization 3 (Some (bn_name_base +:+ "2a"))) ["X"];;
  assign "X" (Activation "relu") ["X"];;
  (* Second component of main path *)
  assign "X" (Conv2D F2 (f, f) (1, 1) same (Some (conv_name_base +:+ "2b"))
                (glorot_uniform (Some 0))) ["X"];;
  assign "X" (BatchNormalization 3 (Some (bn_name_base +:+ "2b"))) ["X"];;
  assign "X" (Activation "relu") ["X"];;
  (* Third component of main path *)
  assign "X" (Conv2D F3 (1, 1) (1, 1) valid (Some (conv_name_base +:+ "2c"))
                (glorot_uniform (Some 0))) ["X"];;
  assign "X" (BatchNormalization 3 (Some (bn_name_base +:+ "2c"))) ["X"];;
  (* SHORTCUT PATH *)
  assign "X_shortcut"
         (Conv2D F3 (1, 1) (s, s) valid (Some (conv_name_base +:+ "1"))
            (glorot_uniform (Some 0))) ["X_shortcut"];;
  assign "X_shortcut" (BatchNormalization 3 (Some (bn_name_base +:+ "1")))
         ["X_shortcut"];;
  (* Final step: Add shortcut value to main path, and pass it through a
     RELU activation *)
  assign "X" Add ["X"; "X_shortcut"];;
  assign "X" (Activation "relu") ["X"];;
  load "X".

(** [def convolutional_block(X, f, filters, stage, block, s=2)] *)
Definition convolutional_block : callable :=
  fun a =>
    def {["X" := a_X a]}
      (convolutional_block_body (a_f a) (a_filters a) (a_stage a)
         (a_block a) (default 2 (a_s a))).

Definition ResNet50_body (G : gmap string callable) (input_shape : list Z)
           (classes : Z) : M state model :=
  (* Define the input as a tensor with shape input_shape *)
  assign "X_input" (InputLayer input_shape) [];;
  (* Zero-Padding *)
  assign "X" (ZeroPadding2D (3, 3)) ["X_input"];;
  (* Stage 1 *)
  assign "X" (Conv2D 64 (7, 7) (2, 2) valid (Some "conv1")
                (glorot_uniform (Some 0))) ["X"];;
  assign "X" (BatchNormalization 3 (Some "bn_conv1")) ["X"];;
  assign "X" (Activation "relu") ["X"];;
  assign "X" (MaxPooling2D (3, 3) (2, 2)) ["X"];;
  (* Stage 2 *)
  assign_block G "X" "convolutional_block" "X"
    (fun X => Args X 3 [64; 64; 256] 2 "a" (Some 1));;
  assign_block G "X" "residual_block" "X"
    (fun X => Args X 3 [64; 64; 256] 2 "b" None);;
  assign_block G "X" "residual_block" "X"
    (fun X => Args X 3 [64; 64; 256] 2 "c" None);;
  (* Stage 3 *)
  assign_block G "X" "convolutional_block" "X"
    (fun X => Args X 3 [128; 128; 512] 3 "a" (Some 2));;
  assign_block G "X" "residual_block" "X"
    (fun X => Args X 3 [128; 128; 512] 3 "b" None);;
  assign_block G "X" "residual_block" "X"
    (fun X => Args X 3 [128; 128; 512] 3 "c" None);;
  assign_block G "X" "residual_block" "X"
    (fun X => Args X 3 [128; 128; 512] 3 "d" None);;
  (* Stage 4 *)
  assign_block G "X" "convolutional_block" "X"
    (fun X => Args X 3 [256; 256; 1024] 4 "a" (Some 2));;
  assign_block G "X" "residual_block" "X"
    (fun X => Args X 3 [256; 256; 1024] 4 "b" None);;
  assign_block G "X" "residual_block" "X"
    (fun X => Args X 3 [256; 256; 1024] 4 "c" None);;
  assign_block G "X" "residual_block" "X"
    (fun X => Args X 3 [256; 256; 1024] 4 "d" None);;
  assign_block G "X" "residual_block" "X"
    (fun X => Args X 3 [256; 256; 1024] 4 "e" None);;
  assign_block G "X" "residual_block" "X"
    (fun X => Args X 3 [256; 256; 1024] 4 "f" None);;
  (* Stage 5 *)
  assign_block G "X" "convolutional_block" "X"
    (fun X => Args X 3 [512; 512; 2048] 5 "a" (Some 2));;
  assign_block G "X" "residual_block" "X"
    (fun X => Args X 3 [512; 512; 2048] 5 "b" None);;
  assign_block G "X" "residual_block" "X"
    (fun X => Args X 3 [512; 512; 2048] 5 "c" None);;
  (* AVGPOOL *)
  assign "X" (AveragePooling2D (2, 2) same) ["X"];;
  (* Output layer *)
  assign "X" Flatten ["X"];;
  assign "X" (Dense classes "softmax" (Some ("fc" +:+ str classes))
                (glorot_uniform (Some 0))) ["X"];;
  (* Create model *)
  new_model "X_input" "X" "ResNet50".

(** [def ResNet50(input_shape = (28, 28, 1), classes = 10)] *)
Definition ResNet50 (G : gmap string callable)
           (input_shape : list Z) (classes : Z) : M graph model :=
  def ∅ (ResNet50_body G input_shape classes).

(** The block functions the notebook's cells define. *)
Definition block_functions : gmap string callable :=
  {[ "residual_block" := residual_block;
     "convolutional_block" := convolutional_block ]}.

(** *** The cells, in the notebook's order *)

Definition cell_imports : M kernel unit :=
  import_as "numpy" "np";;
  import_as "pandas" "pd";;
  import_as "matplotlib.pyplot" "plt";;
  import_as "keras" "keras";;
  from_import "keras.datasets" ["mnist"];;
  from_import "keras.models" ["Sequential"];;
  from_import "keras.layers"
    ["Input"; "Add"; "Dense"; "Activation"; "ZeroPadding2D";
     "BatchNormalization"; "Flatten"; "Conv2D"; "AveragePooling2D";
     "MaxPooling2D"; "GlobalMaxPooling2D"];;
  from_import "keras.models" ["Model"; "load_model"];;
  import_as "keras.backend" "K";;
  from_import "keras.initializers" ["glorot_uniform"].

(** [x = x.reshape(x.shape[0], ...)], the other dimensions given from
    [img_rows] and [img_cols]. *)
Definition reshape_global (x : string) (dims : Z -> Z -> Z -> list Z)
  : M kernel unit :=
  a ← gload_array x;
  a' ← gload_array x;
  n ← dim0 a'.1;
  r ← gload_int "img_rows";
  c ← gload_int "img_cols";
  v ← reshape a (dims n r c);
  gstore x v.

(** Data formating.  [image_data_format] is what
    [K.image_data_format()] returns. *)
Definition cell_data (image_data_format : string) : M kernel unit :=
  gstore "batch_size" (VInt 128);;
  gstore "num_classes" (VInt 10);;
  gstore "epochs" (VInt 2);;
  gstore "img_rows" (VInt 28);;
  gstore "img_cols" (VInt 28);;
  (* Train test data split *)
  gload "mnist";;
  gstore "x_train" mnist_load_data.1.1;;
  gstore "y_train" mnist_load_data.1.2;;
  gstore "x_test" mnist_load_data.2.1;;
  gstore "y_test" mnist_load_data.2.2;;
  gload "K";;
  (if bool_decide (image_data_format = "channels_first") then
     reshape_global "x_train" (fun n r c => [n; 1; r; c]);;
     reshape_global "x_test" (fun n r c => [n; 1; r; c])
   else
     reshape_global "x_train" (fun n r c => [n; r; c; 1]);;
     reshape_global "x_test" (fun n r c => [n; r; c; 1]);;
     r ← gload_int "img_rows";
     c ← gload_int "img_cols";
     gstore "input_shape" (VTuple [r; c; 1]));;
  a ← gload_array "x_train";
  gstore "x_train" (VArray a.1 "float32");;
  a ← gload_array "x_test";
  gstore "x_test" (VArray a.1 "float32");;
  a ← gload_array "x_train";
  v ← idiv a;
  gstore "x_train" v;;
  a ← gload_array "x_test";
  v ← idiv a;
  gstore "x_test" v;;
  (* Class vectors to binary class matrices *)
  gload "keras";;
  y ← gload_array "y_train";
  n ← gload_int "num_classes";
  gstore "y_train" (to_categorical y n);;
  gload "keras";;
  y ← gload_array "y_test";
  n ← gload_int "num_classes";
  gstore "y_test" (to_categorical y n).

(** [x_train.shape] *)
Definition cell_shape : M kernel unit :=
  a ← gload_array "x_train";
  display (VTuple a.1).

Definition cell_residual_block : M kernel unit :=
  gstore "residual_block" (VBlockFunction residual_block).

Definition cell_convolutional_block : M kernel unit :=
  gstore "convolutional_block" (VBlockFunction convolutional_block).

Definition cell_ResNet50 : M kernel unit :=
  gstore "ResNet50" (VModelFunction ResNet50).

(** [model = ResNet50(input_shape=(28,28,1), classes=num_classes)],
    [model.compile(...)] *)
Definition cell_model : M kernel unit :=
  f ← gload "ResNet50";
  classes ← gload_int "num_classes";
  m ← call_model_function f [28; 28; 1] classes;
  gstore "model" (VModel m);;
  gload_model "model";;
  mret tt.

(** [model.fit(x_train, y_train, epochs=epochs, batch_size=batch_size)]:
    an expression statement; its value is shown, no name is bound. *)
Definition cell_fit : M kernel unit :=
  m ← gload_model "model";
  x ← gload_array "x_train";
  y ← gload_array "y_train";
  gload_int "epochs";;
  gload_int "batch_size";;
  h ← fit m x y;
  display h.

(** summarize history for accuracy *)
Definition cell_plot_accuracy : M kernel unit :=
  gload "plt";;
  h ← gload "history";
  history_item h "acc";;
  gload "plt";;
  h ← gload "history";
  history_item h "val_acc";;
  gload "plt";; gload "plt";; gload "plt";; gload "plt";; gload "plt";;
  mret tt.

(** summarize history for loss *)
Definition cell_plot_loss : M kernel unit :=
  gload "plt";;
  h ← gload "history";
  history_item h "loss";;
  gload "plt";;
  h ← gload "history";
  history_item h "val_loss";;
  gload "plt";; gload "plt";; gload "plt";; gload "plt";; gload "plt";;
  mret tt.

Definition notebook (image_data_format : string) : list (M kernel unit) :=
  [cell_imports; cell_data image_data_format; cell_shape;
   cell_residual_block; cell_convolutional_block; cell_ResNet50;
   cell_model; cell_fit; cell_plot_accuracy; cell_plot_loss].

End Impl.


(** ** The overview notebook (Residual Neural Networks - a comprehensive
       overview) *)

Module Overview.

Definition residual_block_body (f : Z) (filters : list Z) (stage : Z)
           (block : string) : M state tensor :=
  (* Retrieve filters *)
  '(F1, F2, F3) ← unpack3 filters;
  (* Input value *)
  assign_var "X_in" "X";;
  (* First component of main path *)
  assign "X" (Conv2D F1 (1, 1) (1, 1) valid None (glorot_uniform (Some 0)))
         ["X"];;
  assign "X" (BatchNormalization 3 None) ["X"];;
  assign "X" (Activation "relu") ["X"];;
  (* Second component of main path *)
  assign "X" (Conv2D F2 (f, f) (1, 1) same None (glorot_uniform (Some 0)))
         ["X"];;
  assign "X" (BatchNormalization 3 None) ["X"];;
  assign "X" (Activation "relu") ["X"];;
  (* Third component of main path *)
  assign "X" (Conv2D F3 (1, 1) (1, 1) valid None (glorot_uniform (Some 0)))
         ["X"];;
  assign "X" (BatchNormalization 3 None) ["X"];;
  (* Final step: Add shortcut value to main path, and pass it through a
     RELU activation *)
  assign "X" Add ["X"; "X_in"];;
  assign "X" (Activation "relu") ["X"];;
  load "X".

(** [def residual_block(X, f, filters, stage, block)] *)
Definition residual_block : callable :=
  fun a =>
    match a_s a with
    | Some _ =>
        raise (TypeError "residual_block() got an unexpected keyword argument 's'")
    | None =>
        def {["X" := a_X a]}
          (residual_block_body (a_f a) (a_filters a) (a_stage a) (a_block a))
    end.

(** [X_shortcut] is assigned in the body, hence a local variable of
    the function; its first occurrence in the body is the read in the
    shortcut path. *)
Definition convolutional_block_body (f : Z) (filters : list Z) (stage : Z)
           (block : string) (s : Z) : M state tensor :=
  (* Retrieve Filters *)
  '(F1, F2, F3) ← unpack3 filters;
  (* Save the input value *)
  assign_var "X_in" "X";;
  (* First component of main path *)
  assign "X" (Conv2D F1 (1, 1) (s, s) valid None (glorot_uniform (Some 0)))
         ["X"];;
  assign "X" (BatchNormalization 3 None) ["X"];;
  assign "X" (Activation "relu") ["X"];;
  (* Second component of main path *)
  assign "X" (Conv2D F2 (f, f) (1, 1) same None (glorot_uniform (Some 0)))
         ["X"];;
  assign "X" (BatchNormalization 3 None) ["X"];;
  assign "X" (Activation "relu") ["X"];;
  (* Third component of main path *)
  assign "X" (Conv2D F3 (1, 1) (1, 1) valid None (glorot_uniform (Some 0)))
         ["X"];;
  assign "X" (BatchNormalization 3 None) ["X"];;
  (* SHORTCUT PATH *)
  assign "X_shortcut"
         (Conv2D F3 (1, 1) (s, s) valid None (glorot_uniform (Some 0)))
         ["X_shortcut"];;
  assign "X_shortcut" (BatchNormalization 3 None) ["X_shortcut"];;
  (* Final step: Add shortcut value to main path, and pass it through a
     RELU activation *)
  assign "X" Add ["X"; "X_in"];;
  assign "X" (Activation "relu") ["X"];;
  load "X".

(** [def convolutional_block(X, f, filters, stage, block, s=2)] *)
Definition convolutional_block : callable :=
  fun a =>
    def {["X" := a_X a]}
      (convolutional_block_body (a_f a) (a_filters a) (a_stage a)
         (a_block a) (default 2 (a_s a))).

Definition ResNet50_body (G : gmap string callable) (input_shape : list Z)
           (classes : Z) : M state model :=
  (* Define the input as a tensor with shape input_shape *)
  assign "X_input" (InputLayer input_shape) [];;
  (* Zero-Padding *)
  assign "X" (ZeroPadding2D (3, 3)) ["X_input"];;
  (* Stage 1 *)
  assign "X" (Conv2D 64 (7, 7) (2, 2) valid (Some "conv1")
                (glorot_uniform (Some 0))) ["X"];;
  assign "X" (BatchNormalization 3 (Some "bn_conv1")) ["X"];;
  assign "X" (Activation "relu") ["X"];;
  assign "X" (MaxPooling2D (3, 3) (2, 2)) ["X"];;
  (* Stage 2 *)
  assign_block G "X" "convolutional_block" "X"
    (fun X => Args X 3 [64; 64; 256] 2 "a" (Some 1));;
  assign_block G "X" "identity_block" "X"
    (fun X => Args X 3 [64; 64; 256] 2 "b" None);;
  assign_block G "X" "identity_block" "X"
    (fun X => Args X 3 [64; 64; 256] 2 "c" None);;
  (* Stage 3 *)
  assign_block G "X" "convolutional_block" "X"
    (fun X => Args X 3 [128; 128; 512] 3 "a" (Some 2));;
  assign_block G "X" "identity_block" "X"
    (fun X => Args X 3 [128; 128; 512] 3 "b" None);;
  assign_block G "X" "identity_block" "X"
    (fun X => Args X 3 [128; 128; 512] 3 "c" None);;
  assign_block G "X" "identity_block" "X"
    (fun X => Args X 3 [128; 128; 512] 3 "d" None);;
  (* Stage 4 *)
  assign_block G "X" "convolutional_block" "X"
    (fun X => Args X 3 [256; 256; 1024] 4 "a" (Some 2));;
  assign_block G "X" "identity_block" "X"
    (fun X => Args X 3 [256; 256; 1024] 4 "b" None);;
  assign_block G "X" "identity_block" "X"
    (fun X => Args X 3 [256; 256; 1024] 4 "c" None);;
  assign_block G "X" "identity_block" "X"
    (fun X => Args X 3 [256; 256; 1024] 4 "d" None);;
  assign_block G "X" "identity_block" "X"
    (fun X => Args X 3 [256; 256; 1024] 4 "e" None);;
  assign_block G "X" "identity_block" "X"
    (fun X => Args X 3 [256; 256; 1024] 4 "f" None);;
  (* Stage 5 *)
  assign_block G "X" "convolutional_block" "X"
    (fun X => Args X 3 [512; 512; 2048] 5 "a" (Some 2));;
  assign_block G "X" "identity_block" "X"
    (fun X => Args X 3 [512; 512; 2048] 5 "b" None);;
  assign_block G "X" "identity_block" "X"
    (fun X => Args X 3 [512; 512; 2048] 5 "c" None);;
  (* AVGPOOL *)
  assign "X" (AveragePooling2D (2, 2) same) ["X"];;
  (* Output layer *)
  assign "X" Flatten ["X"];;
  assign "X" (Dense classes "softmax" (Some ("fc" +:+ str classes))
                (glorot_uniform (Some 0))) ["X"];;
  (* Create model *)
  new_model "X_input" "X" "ResNet50".

(** [def ResNet50(input_shape = (64, 64, 3), classes = 6)] *)
Definition ResNet50 (G : gmap string callable)
           (input_shape : list Z) (classes : Z) : M graph model :=
  def ∅ (ResNet50_body G input_shape classes).

(** The block functions the notebook's cells define; no cell defines
    or imports [identity_block]. *)
Definition block_functions : gmap string callable :=
  {[ "residual_block" := residual_block;
     "convolutional_block" := convolutional_block ]}.

End Overview.


(** ** Reading a run *)

(** A block function that returns on every call: [result] gives the
    tensor it returns and [effect] the graph it leaves. *)
Definition returning (result : call_args -> graph -> tensor)
           (effect : call_args -> graph -> graph) : callable :=
  fun a g => (Return (result a g), effect a g).

(** The calls a run of a stage-assembly body makes, in order. *)
Definition calls_of {A} (body : M state A) (g : graph)
  : list (string * call_args) :=
  trace (body (State ∅ g [])).2.

(** The calls of a trace that belong to a stage. *)
Definition stage_calls (tr : list (string * call_args)) (stage : Z)
  : list (string * call_args) :=
  filter (fun c => a_stage c.2 = stage) tr.

(** The ResNet-50 table for stages 2 to 5: the stage, its filter triple
    and the number of identity blocks that follow its convolutional
    block. *)
Definition stage_table : list (Z * list Z * nat) :=
  [(2, [64; 64; 256], 2%nat); (3, [128; 128; 512], 3%nat);
   (4, [256; 256; 1024], 5%nat); (5, [512; 512; 2048], 2%nat)].

(** What the table prescribes: per stage one convolutional block, then
    the identity blocks, each with the stage's filters. *)
Definition table_calls (identity : string) : list (string * Z * list Z) :=
  '(stage, filters, n) ← stage_table;
  ("convolutional_block", stage, filters)
    :: replicate n (identity, stage, filters).

Definition call_summary (c : string * call_args) : string * Z * list Z :=
  (c.1, a_stage c.2, a_filters c.2).

(** The stride with which the first block of a stage is called. *)
Definition first_block_stride (tr : list (string * call_args)) (stage : Z)
  : option (string * option Z) :=
  (fun c => (c.1, a_s c.2)) <$> head (stage_calls tr stage).

(** The calls of the notebooks' stage-assembly functions, run with
    block functions that return. *)
Definition impl_calls res eff res' eff' input_shape classes g :=
  calls_of (Impl.ResNet50_body
              {[ "convolutional_block" := returning res eff;
                 "residual_block" := returning res' eff' ]}
              input_shape classes) g.

Definition overview_calls res eff res' eff' input_shape classes g :=
  calls_of (Overview.ResNet50_body
              {[ "convolutional_block" := returning res eff;
                 "identity_block" := returning res' eff' ]}
              input_shape classes) g.

(** The layer without its name. *)
Definition unnamed (l : layer) : layer :=
  match l with
  | Conv2D filters k s p _ init => Conv2D filters k s p None init
  | BatchNormalization axis _ => BatchNormalization axis None
  | Dense units act _ init => Dense units act None init
  | _ => l
  end.

(** Two models have the same graph up to layer names: the same layers,
    in the same order, wired in the same way from the model's input. *)
Definition topology (m : model) : list (nat * layer * list nat) :=
  (fun '(t, n) =>
     ((t - m_inputs m)%nat, unnamed (n_layer n),
      (fun i => (i - m_inputs m)%nat) <$> n_inputs n)) <$> m_nodes m.

Definition same_topology (m1 m2 : model) : Prop :=
  topology m1 = topology m2
  ∧ (m_outputs m1 - m_inputs m1 = m_outputs m2 - m_inputs m2)%nat.

(** The kinds of layers, and where an input of a node created by a
    block call comes from: the block's argument or the [k]-th node the
    call created. *)
Inductive kind : Type :=
| KInput | KZeroPadding2D | KConv2D | KBatchNormalization | KActivation
| KMaxPooling2D | KAveragePooling2D | KFlatten | KDense | KAdd.

Definition kind_of (l : layer) : kind :=
  match l with
  | InputLayer _ => KInput
  | ZeroPadding2D _ => KZeroPadding2D
  | Conv2D _ _ _ _ _ _ => KConv2D
  | BatchNormalization _ _ => KBatchNormalization
  | Activation _ => KActivation
  | MaxPooling2D _ _ => KMaxPooling2D
  | AveragePooling2D _ _ => KAveragePooling2D
  | Flatten => KFlatten
  | Dense _ _ _ _ => KDense
  | Add => KAdd
  end.

Inductive wire : Type := Argument | Created (k : nat).

Definition wire_of (base : nat) (t : tensor) : wire :=
  if (t <? base)%nat then Argument else Created (t - base).

(** The sequence of layer applications a call performed on a graph of
    [base] nodes, oldest first, given the nodes it added (newest
    first). *)
Definition applications (base : nat) (added : list node)
  : list (kind * list wire) :=
  (fun n => (kind_of (n_layer n), wire_of base <$> n_inputs n)) <$> rev added.

(** The one sequence of [residual_block] ... *)
Definition residual_applications : list (kind * list wire) :=
  [(KConv2D, [Argument]); (KBatchNormalization, [Created 0]);
   (KActivation, [Created 1]);
   (KConv2D, [Created 2]); (KBatchNormalization, [Created 3]);
   (KActivation, [Created 4]);
   (KConv2D, [Created 5]); (KBatchNormalization, [Created 6]);
   (KAdd, [Created 7; Argument]); (KActivation, [Created 8])]%nat.

(** ... and of [convolutional_block]. *)
Definition convolutional_applications : list (kind * list wire) :=
  [(KConv2D, [Argument]); (KBatchNormalization, [Created 0]);
   (KActivation, [Created 1]);
   (KConv2D, [Created 2]); (KBatchNormalization, [Created 3]);
   (KActivation, [Created 4]);
   (KConv2D, [Created 5]); (KBatchNormalization, [Created 6]);
   (KConv2D, [Argument]); (KBatchNormalization, [Created 8]);
   (KAdd, [Created 7; Created 9]); (KActivation, [Created 10])]%nat.

(** A spatial length sampled with stride [s]. *)
Definition downsampled (n s : Z) : Z := (n + s - 1) / s.

(** The nodes a residual block adds to a graph of [base] nodes, newest
    first; [conv] and [bn] give the names of the layers of a branch. *)
Definition residual_nodes (conv bn : string → option string) (X : tensor)
           (f F1 F2 F3 : Z) (base : nat) : list node :=
  [Node (Activation "relu") [(8 + base)%nat];
   Node Add [(7 + base)%nat; X];
   Node (BatchNormalization 3 (bn "2c")) [(6 + base)%nat];
   Node (Conv2D F3 (1, 1) (1, 1) valid (conv "2c") (glorot_uniform (Some 0)))
        [(5 + base)%nat];
   Node (Activation "relu") [(4 + base)%nat];
   Node (BatchNormalization 3 (bn "2b")) [(3 + base)%nat];
   Node (Conv2D F2 (f, f) (1, 1) same (conv "2b") (glorot_uniform (Some 0)))
        [(2 + base)%nat];
   Node (Activation "relu") [(1 + base)%nat];
   Node (BatchNormalization 3 (bn "2a")) [(0 + base)%nat];
   Node (Conv2D F1 (1, 1) (1, 1) valid (conv "2a") (glorot_uniform (Some 0)))
        [X]].

(** The nodes a convolutional block adds. *)
Definition convolutional_nodes (conv bn : string → option string)
           (X : tensor) (f F1 F2 F3 s : Z) (base : nat) : list node :=
  [Node (Activation "relu") [(10 + base)%nat];
   Node Add [(7 + base)%nat; (9 + base)%nat];
   Node (BatchNormalization 3 (bn "1")) [(8 + base)%nat];
   Node (Conv2D F3 (1, 1) (s, s) valid (conv "1") (glorot_uniform (Some 0)))
        [X];
   Node (BatchNormalization 3 (bn "2c")) [(6 + base)%nat];
   Node (Conv2D F3 (1, 1) (1, 1) valid (conv "2c") (glorot_uniform (Some 0)))
        [(5 + base)%nat];
   Node (Activation "relu") [(4 + base)%nat];
   Node (BatchNormalization 3 (bn "2b")) [(3 + base)%nat];
   Node (Conv2D F2 (f, f) (1, 1) same (conv "2b") (glorot_uniform (Some 0)))
        [(2 + base)%nat];
   Node (Activation "relu") [(1 + base)%nat];
   Node (BatchNormalization 3 (bn "2a")) [(0 + base)%nat];
   Node (Conv2D F1 (1, 1) (s, s) valid (conv "2a") (glorot_uniform (Some 0)))
        [X]].

(** The layer names of [ResNet-implementation.ipynb]; the overview
    notebook names no layer of a block. *)
Definition conv_name (stage : Z) (block suffix : string) : option string :=
  Some (("res" +:+ str stage +:+ block +:+ "_branch") +:+ suffix).

Definition bn_name (stage : Z) (block suffix : string) : option string :=
  Some (("bn" +:+ str stage +:+ block +:+ "_branch") +:+ suffix).

Definition no_name (suffix : string) : option string := None.

(** A graph whose nodes were created on top of [b] older ones. *)
Definition shift_node (b : nat) (n : node) : node :=
  Node (n_layer n) ((fun t => (t + b)%nat) <$> n_inputs n).

Definition shift_graph (b : nat) (g : graph) : graph := shift_node b <$> g.

Definition shift_entry (b : nat) (p : tensor * node) : tensor * node :=
  ((p.1 + b)%nat, shift_node b p.2).

(** The nodes [ResNet50] of [ResNet-implementation.ipynb] creates on an
    empty graph. *)
Definition resnet50_nodes (input_shape : list Z) (classes : Z) : graph :=
  (Impl.ResNet50 Impl.block_functions input_shape classes []).2.

(** The kernel of a layer that has one: its initializer and its shape,
    given the shape of the layer's input. *)
Definition kernel_of (l : layer) (input : list Z)
  : option (initializer * list Z) :=
  match l with
  | Conv2D filters (kh, kw) _ _ _ init =>
      Some (init, [kh; kw; default 0 (last input); filters])
  | Dense units _ _ init => Some (init, [default 0 (last input); units])
  | _ => None
  end.

(** The layer has no kernel, or draws it with seed 0. *)
Definition seeded_0 (l : layer) : bool :=
  match l with
  | Conv2D _ _ _ _ _ (glorot_uniform seed)
  | Dense _ _ _ (glorot_uniform seed) => bool_decide (seed = Some 0)
  | _ => true
  end.

Section InitialWeights.

(** What an initializer draws: with a seed, values fixed by the seed
    and the shape; without, values taken from the state of the
    framework's generator, which differs from run to run. *)
Context {weights rng : Type}.
Variable seeded : Z → list Z → weights.
Variable unseeded : rng → list Z → weights * rng.

Definition draw (init : initializer) (shape : list Z) (r : rng)
  : weights * rng :=
  match init with
  | glorot_uniform (Some seed) => (seeded seed shape, r)
  | glorot_uniform None => unseeded r shape
  end.

(** The initial kernels of a model's layers, in creation order. *)
Fixpoint initial_kernels (g : graph) (ns : list (tensor * node)) (r : rng)
  : list weights :=
  match ns with
  | [] => []
  | (_, n) :: ns' =>
      match kernel_of (n_layer n)
              (default [] (head (shape_of g <$> n_inputs n))) with
      | Some (init, shape) =>
          let '(w, r') := draw init shape r in
          w :: initial_kernels g ns' r'
      | None => initial_kernels g ns' r
      end
  end.

End InitialWeights.

(** [Q] holds of the outcome and the final state of [m] run from [s]. *)
Definition wp {S A} (m : M S A) (Q : outcome A → S → Prop) (s : S) : Prop :=
  Q (m s).1 (m s).2.

(** "The first block of each of stages 2 to 5 is a convolutional block
    called with stride 2", as a property of a trace. *)
Definition stride_2_in_every_stage (tr : list (string * call_args)) : Prop :=
  ∀ stage, stage ∈ [2; 3; 4; 5] →
    first_block_stride tr stage = Some ("convolutional_block", Some 2).

(** ** Reading the model [ResNet50] returns *)

(** The six nodes [ResNet50] creates before its first block call: the
    input, the zero padding and stage 1. *)
Definition stem_nodes (input_shape : list Z) (base : nat) : list node :=
  [Node (MaxPooling2D (3, 3) (2, 2)) [(4 + base)%nat];
   Node (Activation "relu") [(3 + base)%nat];
   Node (BatchNormalization 3 (Some "bn_conv1")) [(2 + base)%nat];
   Node (Conv2D 64 (7, 7) (2, 2) valid (Some "conv1")
           (glorot_uniform (Some 0))) [(1 + base)%nat];
   Node (ZeroPadding2D (3, 3)) [(0 + base)%nat];
   Node (InputLayer input_shape) []].

(** The side of the feature map along [ResNet50], from the side [n] of
    the input: after [ZeroPadding2D((3, 3))] and [conv1], after the max
    pooling of stage 1, at the end of a stage (stage 2 keeps the side,
    each later stage halves it), and after the average pooling. *)
Definition stem_length (n : Z) : Z :=
  conv_output_length (n + 2 * 3) 7 valid 2.

Definition pool_length (n : Z) : Z := conv_output_length n 3 valid 2.

Definition stage_length (stage : nat) (n : Z) : Z :=
  Nat.iter (stage - 2) (fun x => downsampled x 2)
    (pool_length (stem_length n)).

Definition final_length (n : Z) : Z :=
  conv_output_length (stage_length 5 n) 2 same 2.

(** The shapes of the inputs of the sixteen block calls, in call order:
    the first block of a stage reads the output of the stage before. *)
Definition block_input_shapes (H W : Z) : list (list Z) :=
  let at_stage stage channels :=
    [stage_length stage H; stage_length stage W; channels] in
  [at_stage 2%nat 64] ++ replicate 2 (at_stage 2%nat 256)
  ++ [at_stage 2%nat 256] ++ replicate 3 (at_stage 3%nat 512)
  ++ [at_stage 3%nat 512] ++ replicate 5 (at_stage 4%nat 1024)
  ++ [at_stage 4%nat 1024] ++ replicate 2 (at_stage 5%nat 2048).

(** Given the shapes [ss] of the tensors created before it, an [Add]
    node sums tensors of one shape. *)
Definition sum_agrees (ss : list (list Z)) (n : node) : Prop :=
  match n_layer n, n_inputs n with
  | Add, a :: rest =>
      Forall (fun b => default [] (rev ss !! b) = default [] (rev ss !! a))
        rest
  | _, _ => True
  end.

Definition is_Add (l : layer) : bool :=
  match l with Add => true | _ => false end.

(** The layers of a model, in creation order. *)
Definition model_layers (m : model) : list layer :=
  (fun p => n_layer p.2) <$> m_nodes m.

(** The [name=] argument of a layer call, when the call gives one. *)
Definition layer_name (l : layer) : option string :=
  match l with
  | Conv2D _ _ _ _ name _ | BatchNormalization _ name | Dense _ _ name _ =>
      name
  | _ => None
  end.

Definition model_layer_names (m : model) : list string :=
  omap (fun p => layer_name (n_layer p.2)) (m_nodes m).

(** The layers with a kernel: the ones the 50 of ResNet-50 counts. *)
Definition weighted (l : layer) : bool :=
  match l with
  | Conv2D _ _ _ _ _ _ | Dense _ _ _ _ => true
  | _ => false
  end.

(** The layers from tensor [t] back to the input, newest first, taking
    at each layer its first input: at [Add()([X, X_shortcut])] the main
    path [X], not the shortcut. *)
Fixpoint main_path (g : graph) (t : tensor) : list layer :=
  match g with
  | [] => []
  | n :: g' =>
      if bool_decide (t = length g')
      then n_layer n :: match n_inputs n with
                        | a :: _ => main_path g' a
                        | [] => []
                        end
      else main_path g' t
  end.

Definition starts_with (c : Ascii.ascii) (s : string) : bool :=
  match s with
  | String c' _ => bool_decide (c' = c)
  | EmptyString => false
  end.

(** ** Running cells by hand *)

(** Cells run one at a time, in any order and any number of times: a
    cell that raises stops, the kernel keeps what the cell did before the
    error, and the next cell starts from there. *)
Definition run_by_hand (cells : list (M kernel unit)) (k : kernel)
  : kernel :=
  foldl (fun k c => (c k).2) k cells.

(** Run from a kernel in which [history] is unbound, the cell leaves it
    unbound, whether it returns or raises. *)
Definition keeps_history_unbound (c : M kernel unit) : Prop :=
  ∀ gl g d, gl !! "history" = None →
    wp c (λ _ k', globals k' !! "history" = None) (Kernel gl g d).

(** * Stage assembly *)

(** The table, call by call. *)
Example table_calls_identity_block :
  table_calls "identity_block"
  = [("convolutional_block", 2, [64; 64; 256]);
     ("identity_block", 2, [64; 64; 256]);
     ("identity_block", 2, [64; 64; 256]);
     ("convolutional_block", 3, [128; 128; 512]);
     ("identity_block", 3, [128; 128; 512]);
     ("identity_block", 3, [128; 128; 512]);
     ("identity_block", 3, [128; 128; 512]);
     ("convolutional_block", 4, [256; 256; 1024]);
     ("identity_block", 4, [256; 256; 1024]);
     ("identity_block", 4, [256; 256; 1024]);
     ("identity_block", 4, [256; 256; 1024]);
     ("identity_block", 4, [256; 256; 1024]);
     ("identity_block", 4, [256; 256; 1024]);
     ("convolutional_block", 5, [512; 512; 2048]);
     ("identity_block", 5, [512; 512; 2048]);
     ("identity_block", 5, [512; 512; 2048])].
Proof. reflexivity. Qed.

(** The notebook's model on 28 x 28 x 1 images with 10 classes: the
    grid after the four stages, the flattened features, the output. *)
Example impl_model_shapes :
  let g := (Impl.ResNet50 Impl.block_functions [28; 28; 1] 10 []).2 in
  shape_of g 5 = [6; 6; 64] ∧ shape_of g 37 = [6; 6; 256]
  ∧ shape_of g 79 = [3; 3; 512] ∧ shape_of g 141 = [2; 2; 1024]
  ∧ shape_of g 173 = [1; 1; 2048] ∧ shape_of g 175 = [2048]
  ∧ shape_of g 176 = [10].
Proof. vm_compute. repeat split. Qed.

Section StageAssembly.

(** Any block functions that return. *)
Variables (res res' : call_args → graph → tensor).
Variables (eff eff' : call_args → graph → graph).
Variables (input_shape : list Z) (classes : Z) (g : graph).

Let impl := impl_calls res eff res' eff' input_shape classes g.
Let overview := overview_calls res eff res' eff' input_shape classes g.

(** C1: in both notebooks the stage-assembly function makes the 16
    block calls of the ResNet-50 table: per stage one convolutional
    block followed by 2, 3, 5 and 2 identity (residual) blocks, 3, 4, 6
    and 3 blocks in all, each called with the filter triple of its
    stage; the notebook's own block functions are called in this way
    too. *)
Theorem C1_stage_assembly_follows_table :
  call_summary <$> impl = table_calls "residual_block"
  ∧ call_summary <$> overview = table_calls "identity_block"
  ∧ length impl = 16%nat ∧ length overview = 16%nat
  ∧ (fun st => length (stage_calls impl st)) <$> [2; 3; 4; 5]
    = [3; 4; 6; 3]%nat
  ∧ (fun st => length (stage_calls overview st)) <$> [2; 3; 4; 5]
    = [3; 4; 6; 3]%nat
  ∧ call_summary
      <$> calls_of (Impl.ResNet50_body Impl.block_functions
                      input_shape classes) g
    = table_calls "residual_block".
Proof.
  subst impl overview.
  repeat split; vm_compute; reflexivity.
Qed.

(** C2, amended: the first block of each stage is a convolutional
    block; it is called with stride 1 in stage 2 and with stride 2 in
    stages 3, 4 and 5. *)
Theorem C2_first_block_strides :
  (fun st => first_block_stride impl st) <$> [2; 3; 4; 5]
  = [Some ("convolutional_block", Some 1);
     Some ("convolutional_block", Some 2);
     Some ("convolutional_block", Some 2);
     Some ("convolutional_block", Some 2)]
  ∧ (fun st => first_block_stride overview st) <$> [2; 3; 4; 5]
    = (fun st => first_block_stride impl st) <$> [2; 3; 4; 5].
Proof.
  subst impl overview.
  split; vm_compute; reflexivity.
Qed.

End StageAssembly.

(** C2 as stated fails on the notebook's run: stage 2 opens with stride
    1. *)
Lemma C2_stage_2_has_stride_1 :
  ¬ stride_2_in_every_stage
      (calls_of (Impl.ResNet50_body Impl.block_functions [28; 28; 1] 10) []).
Proof.
  intros H.
  specialize (H 2).
  assert (Hin : 2 ∈ [2; 3; 4; 5]) by set_solver.
  apply H in Hin.
  vm_compute in Hin.
  discriminate Hin.
Qed.

(** * The overview notebook's blocks *)



(** C3 fails on the code: the overview notebook's [ResNet50], run with
    the block functions its cells define, builds no model.  Its first
    block call raises on the unbound [X_shortcut]; had that call
    returned, the next one would raise on the name [identity_block],
    which no cell binds; [ResNet-implementation.ipynb] builds its
    model. *)
Theorem C3_overview_ResNet50_builds_no_model
        (input_shape : list Z) (classes : Z) (g : graph) :
  (Overview.ResNet50 Overview.block_functions input_shape classes g).1
  = Raise (UnboundLocalError "X_shortcut")
  ∧ (∀ res eff,
       (Overview.ResNet50
          (<["convolutional_block" := returning res eff]>
             Overview.block_functions) input_shape classes g).1
       = Raise (NameError "identity_block"))
  ∧ returns (Impl.ResNet50 Impl.block_functions input_shape classes g).1
    = true.
Proof.
  split; [|split].
  - vm_compute. reflexivity.
  - intros res eff. vm_compute. reflexivity.
  - vm_compute. reflexivity.
Qed.

(** * The cells of ResNet-implementation.ipynb *)

(** C5 fails on the code: run once each, from the top, on a fresh
    kernel, the cells up to the training cell return, and the accuracy
    plot raises [NameError] on [history]: the training cell shows what
    [model.fit] returns and binds no name. *)
Theorem C5_history_is_never_bound :
  (run_cells (Impl.notebook "channels_last") 0 fresh).1
  = Some (8%nat, NameError "history")
  ∧ Impl.notebook "channels_last" !! 8%nat = Some Impl.cell_plot_accuracy
  ∧ globals (run_cells (Impl.notebook "channels_last") 0 fresh).2
      !! "history" = None
  ∧ last (displayed (run_cells (Impl.notebook "channels_last") 0 fresh).2)
    = Some (VHistory ["loss"; "acc"]).
Proof.
  repeat split; vm_compute; reflexivity.
Qed.

(** * Shapes and nodes of an extended graph *)

Lemma shapes_length (g : graph) : length (shapes g) = length g.
Proof. induction g as [|n g IH]; simpl; [reflexivity | by rewrite IH]. Qed.

Lemma shape_of_old (n : node) (g : graph) (t : tensor) :
  (t < length g)%nat → shape_of (n :: g) t = shape_of g t.
Proof.
  intros Ht. unfold shape_of. simpl.
  rewrite lookup_app_l; [reflexivity|].
  by rewrite length_rev, shapes_length.
Qed.

Lemma shape_of_new (n : node) (g : graph) (t : tensor) :
  t = length g →
  shape_of (n :: g) t = output_shape (n_layer n) (shape_of g <$> n_inputs n).
Proof.
  intros ->. unfold shape_of. simpl.
  rewrite lookup_app_r; rewrite length_rev, shapes_length; [|lia].
  by rewrite Nat.sub_diag.
Qed.

(** Only the tensors of a graph have a shape in it. *)
Lemma shape_of_in_graph (g : graph) (t : tensor) :
  shape_of g t ≠ [] → (t < length g)%nat.
Proof.
  intros Hshape. destruct (decide (t < length g)%nat) as [|Hge]; [done|].
  exfalso. apply Hshape. unfold shape_of.
  rewrite lookup_ge_None_2; [reflexivity|].
  rewrite length_rev, shapes_length. lia.
Qed.

Lemma node_at_added (added g : graph) (k : nat) :
  (k < length added)%nat →
  node_at (added ++ g) (k + length g)%nat = rev added !! k.
Proof.
  intros Hk. unfold node_at.
  rewrite rev_app_distr, lookup_app_r; rewrite length_rev; [|lia].
  by replace (k + length g - length g)%nat with k by lia.
Qed.

Lemma wire_of_argument (base : nat) (t : tensor) :
  (t < base)%nat → wire_of base t = Argument.
Proof.
  intros Ht. unfold wire_of.
  by destruct (Nat.ltb_spec t base); [|lia].
Qed.

Lemma wire_of_created (base k : nat) :
  wire_of base (k + base)%nat = Created k.
Proof.
  unfold wire_of.
  destruct (Nat.ltb_spec (k + base)%nat base); [lia|].
  f_equal. lia.
Qed.

Lemma conv_output_length_same (n k : Z) : conv_output_length n k same 1 = n.
Proof. unfold conv_output_length. rewrite Z.div_1_r. lia. Qed.

Lemma conv_output_length_pointwise (n s : Z) :
  conv_output_length n 1 valid s = downsampled n s.
Proof. unfold conv_output_length, downsampled. f_equal. lia. Qed.

Lemma downsampled_1 (n : Z) : downsampled n 1 = n.
Proof. unfold downsampled. rewrite Z.div_1_r. lia. Qed.

(** With a positive stride the sampled length is the ceiling of
    [n / s]. *)
Lemma downsampled_ceiling (n s : Z) :
  0 < s → (downsampled n s - 1) * s < n ≤ downsampled n s * s.
Proof.
  intros Hs. unfold downsampled.
  pose proof (Z.div_mod (n + s - 1) s ltac:(lia)) as Hdm.
  pose proof (Z.mod_pos_bound (n + s - 1) s Hs) as Hb.
  nia.
Qed.

(** * What a block call does to the graph *)

Lemma impl_residual_block_run X f F1 F2 F3 stage block g :
  Impl.residual_block (Args X f [F1; F2; F3] stage block None) g
  = (Return (9 + length g)%nat,
     residual_nodes (conv_name stage block) (bn_name stage block)
       X f F1 F2 F3 (length g) ++ g).
Proof. vm_compute. reflexivity. Qed.

Lemma overview_residual_block_run X f F1 F2 F3 stage block g :
  Overview.residual_block (Args X f [F1; F2; F3] stage block None) g
  = (Return (9 + length g)%nat,
     residual_nodes no_name no_name X f F1 F2 F3 (length g) ++ g).
Proof. vm_compute. reflexivity. Qed.

Lemma impl_convolutional_block_run X f F1 F2 F3 stage block s g :
  Impl.convolutional_block (Args X f [F1; F2; F3] stage block s) g
  = (Return (11 + length g)%nat,
     convolutional_nodes (conv_name stage block) (bn_name stage block)
       X f F1 F2 F3 (default 2 s) (length g) ++ g).
Proof. destruct s; vm_compute; reflexivity. Qed.

Ltac shape_steps :=
  repeat (first [ rewrite shape_of_new by (cbn [length]; lia)
                | rewrite shape_of_old by (cbn [length]; lia) ];
          cbn [n_layer n_inputs fmap list_fmap]).

Section BlockShapes.

Variables (conv bn : string → option string).
Variables (X : tensor) (f F1 F2 F3 : Z) (g : graph) (H W C : Z).
Hypothesis X_in_g : (X < length g)%nat.
Hypothesis X_shape : shape_of g X = [H; W; C].

(** Shapes along a residual block: the main path ends with [F3]
    channels on the input's grid. *)
Lemma residual_nodes_shapes :
  let g' := residual_nodes conv bn X f F1 F2 F3 (length g) ++ g in
  shape_of g' (7 + length g)%nat = [H; W; F3]
  ∧ shape_of g' X = [H; W; C]
  ∧ shape_of g' (9 + length g)%nat = [H; W; F3].
Proof.
  unfold residual_nodes. cbn [app].
  repeat split; shape_steps; rewrite X_shape; cbn [output_shape];
    rewrite ?conv_output_length_same, ?conv_output_length_pointwise,
      ?downsampled_1; reflexivity.
Qed.

(** Shapes along a convolutional block: both branches end with [F3]
    channels on the grid sampled with the stride. *)
Lemma convolutional_nodes_shapes (s : Z) :
  let g' := convolutional_nodes conv bn X f F1 F2 F3 s (length g) ++ g in
  let out := [downsampled H s; downsampled W s; F3] in
  shape_of g' (7 + length g)%nat = out
  ∧ shape_of g' (9 + length g)%nat = out
  ∧ shape_of g' (11 + length g)%nat = out.
Proof.
  unfold convolutional_nodes. cbn [app].
  repeat split; shape_steps; rewrite X_shape; cbn [output_shape];
    rewrite ?conv_output_length_same, ?conv_output_length_pointwise,
      ?downsampled_1; reflexivity.
Qed.

Lemma residual_nodes_applications :
  applications (length g) (residual_nodes conv bn X f F1 F2 F3 (length g))
  = residual_applications.
Proof.
  unfold applications, residual_nodes, residual_applications.
  cbn [rev app fmap list_fmap n_layer n_inputs kind_of].
  by rewrite !wire_of_created, !wire_of_argument.
Qed.

Lemma convolutional_nodes_applications (s : Z) :
  applications (length g)
    (convolutional_nodes conv bn X f F1 F2 F3 s (length g))
  = convolutional_applications.
Proof.
  unfold applications, convolutional_nodes, convolutional_applications.
  cbn [rev app fmap list_fmap n_layer n_inputs kind_of].
  by rewrite !wire_of_created, !wire_of_argument.
Qed.

End BlockShapes.

(** * The blocks *)

(** C6: [residual_block], in either notebook, ends with a ReLU applied
    to the sum of the output of its three-convolution main path and its
    saved input; on an input with [F3] channels the two summands have
    one shape, and the result has the input's spatial dimensions and
    channel count. *)
Theorem C6_residual_block_adds_its_input_back
        (X : tensor) (f F1 F2 F3 stage : Z) (block : string) (g : graph)
        (H W : Z) :
  shape_of g X = [H; W; F3] →
  ∀ residual_block,
    residual_block = Impl.residual_block
    ∨ residual_block = Overview.residual_block →
    ∃ added,
      residual_block (Args X f [F1; F2; F3] stage block None) g
      = (Return (9 + length g)%nat, added ++ g)
      ∧ applications (length g) added = residual_applications
      ∧ node_at (added ++ g) (9 + length g)
        = Some (Node (Activation "relu") [(8 + length g)%nat])
      ∧ node_at (added ++ g) (8 + length g)
        = Some (Node Add [(7 + length g)%nat; X])
      ∧ shape_of (added ++ g) (7 + length g)%nat = shape_of (added ++ g) X
      ∧ shape_of (added ++ g) (9 + length g)%nat = shape_of g X.
Proof.
  intros Hshape rb Hrb.
  assert (HX : (X < length g)%nat)
    by (apply shape_of_in_graph; by rewrite Hshape).
  assert (Hnodes : ∀ conv bn,
    let added := residual_nodes conv bn X f F1 F2 F3 (length g) in
    applications (length g) added = residual_applications
    ∧ node_at (added ++ g) (9 + length g)
      = Some (Node (Activation "relu") [(8 + length g)%nat])
    ∧ node_at (added ++ g) (8 + length g)
      = Some (Node Add [(7 + length g)%nat; X])
    ∧ shape_of (added ++ g) (7 + length g)%nat = shape_of (added ++ g) X
    ∧ shape_of (added ++ g) (9 + length g)%nat = shape_of g X).
  { intros conv bn added.
    destruct (residual_nodes_shapes conv bn X f F1 F2 F3 g H W F3 HX Hshape)
      as (Hmain & Hin & Hout).
    split; [by apply residual_nodes_applications|].
    split; [by rewrite node_at_added by (simpl; lia)|].
    split; [by rewrite node_at_added by (simpl; lia)|].
    fold added in Hmain, Hin, Hout.
    split; congruence. }
  destruct Hrb as [-> | ->].
  - eexists. split; [apply impl_residual_block_run | apply Hnodes].
  - eexists. split; [apply overview_residual_block_run | apply Hnodes].
Qed.

Lemma C6_witness :
  ∃ added,
    Impl.residual_block (Args 0%nat 3 [64; 64; 256] 2 "b" None)
      [Node (InputLayer [6; 6; 256]) []]
    = (Return 10%nat, added ++ [Node (InputLayer [6; 6; 256]) []])
    ∧ applications 1 added = residual_applications
    ∧ node_at (added ++ [Node (InputLayer [6; 6; 256]) []]) 10
      = Some (Node (Activation "relu") [9%nat])
    ∧ node_at (added ++ [Node (InputLayer [6; 6; 256]) []]) 9
      = Some (Node Add [8%nat; 0%nat])
    ∧ shape_of (added ++ [Node (InputLayer [6; 6; 256]) []]) 8%nat
      = shape_of (added ++ [Node (InputLayer [6; 6; 256]) []]) 0%nat
    ∧ shape_of (added ++ [Node (InputLayer [6; 6; 256]) []]) 10%nat
      = shape_of [Node (InputLayer [6; 6; 256]) []] 0%nat.
Proof.
  apply (C6_residual_block_adds_its_input_back
           0%nat 3 64 64 256 2 "b" [Node (InputLayer [6; 6; 256]) []] 6 6).
  - reflexivity.
  - left. reflexivity.
Defined.



(** Unpacking anything but three filters raises before any layer is
    applied. *)
Lemma impl_blocks_unpack_error X f filters stage block s g :
  length filters ≠ 3%nat →
  Impl.residual_block (Args X f filters stage block None) g
  = (Raise (UnpackError 3 (length filters)), g)
  ∧ Impl.convolutional_block (Args X f filters stage block s) g
    = (Raise (UnpackError 3 (length filters)), g).
Proof.
  intros Hlen.
  destruct filters as [|F1 [|F2 [|F3 [|F4 rest]]]];
    try (exfalso; apply Hlen; reflexivity);
    split; destruct s; vm_compute; reflexivity.
Qed.



(** * Reasoning about runs from an arbitrary state *)

Lemma wp_bind {S A B} (m : M S A) (k : A → M S B) Q s :
  wp m (λ r s', match r with
                | Return a => wp (k a) Q s'
                | Raise e => Q (Raise e) s'
                end) s →
  wp (m ≫= k) Q s.
Proof.
  unfold wp, mbind, M_bind, bind.
  destruct (m s) as [[a|e] s']; simpl; auto.
Qed.

(** A postcondition that holds of every raise and that the continuation
    establishes from any state. *)
Lemma wp_bind_any {S A B} (m : M S A) (k : A → M S B) Q s :
  (∀ e s', Q (Raise e) s') → (∀ a s', wp (k a) Q s') → wp (m ≫= k) Q s.
Proof.
  intros Hraise Hk. apply wp_bind. unfold wp at 1.
  destruct (m s).1; auto.
Qed.

Lemma wp_ret {S A} (a : A) (Q : outcome A → S → Prop) s :
  Q (Return a) s → wp (mret a) Q s.
Proof. auto. Qed.

Lemma wp_raise {S A} e (Q : outcome A → S → Prop) s :
  Q (Raise e) s → wp (raise e) Q s.
Proof. auto. Qed.

Lemma wp_gstore x v Q gl g d :
  Q (Return tt) (Kernel (<[x := v]> gl) g d) →
  wp (gstore x v) Q (Kernel gl g d).
Proof. auto. Qed.

Lemma wp_gload x Q gl g d :
  match gl !! x with
  | Some v => Q (Return v) (Kernel gl g d)
  | None => Q (Raise (NameError x)) (Kernel gl g d)
  end →
  wp (gload x) Q (Kernel gl g d).
Proof. unfold wp, gload. simpl. destruct (gl !! x); auto. Qed.

Ltac wp_lookup :=
  repeat first [ rewrite lookup_insert_eq | rewrite lookup_insert_ne by done ].

Ltac wp_step :=
  lazymatch goal with
  | |- wp (mbind _ _) _ _ => apply wp_bind
  | |- wp (mret _) _ _ => apply wp_ret
  | |- wp (raise _) _ _ => apply wp_raise
  | |- wp (gstore _ _) _ _ => apply wp_gstore
  | |- wp (gload _) _ _ => apply wp_gload; wp_lookup
  | |- wp (gload_int _) _ _ => unfold gload_int
  | |- wp (gload_array _) _ _ => unfold gload_array
  | |- wp (Impl.reshape_global _ _) _ _ => unfold Impl.reshape_global
  | |- wp (dim0 _) _ _ => unfold dim0
  | |- wp (reshape _ _) _ _ => unfold reshape
  | |- wp (idiv _) _ _ => unfold idiv
  | |- wp (if bool_decide _ then _ else _) _ _ => case_bool_decide
  | |- match ?gl !! ?x with _ => _ end =>
      let E := fresh "E" in destruct (gl !! x) eqn:E
  end; cbv beta iota; cbn [fst snd].

Ltac wp_run :=
  unfold Impl.cell_data, mnist_load_data, to_categorical; cbn [fst snd];
  repeat wp_step.

(** * The data-formatting cell *)

Lemma cell_data_first_leaves_unbound (gl : gmap string pyval) g d :
  gl !! "input_shape" = None →
  wp (Impl.cell_data "channels_first")
     (λ _ k', globals k' !! "input_shape" = None) (Kernel gl g d).
Proof.
  intros Hk.
  unfold Impl.cell_data.
  rewrite bool_decide_eq_true_2 by done.
  wp_run; cbn [globals]; wp_lookup; exact Hk.
Qed.

Lemma cell_data_last_binds (gl : gmap string pyval) g d :
  wp (Impl.cell_data "channels_last")
     (λ r k', r = Return tt →
              globals k' !! "input_shape" = Some (VTuple [28; 28; 1]))
     (Kernel gl g d).
Proof.
  unfold Impl.cell_data.
  rewrite bool_decide_eq_false_2 by done.
  wp_run; intros Hr; try discriminate Hr; cbn [globals]; wp_lookup;
    reflexivity.
Qed.

(** Once [mnist], [K] and [keras] are imported the cell returns, with
    the training images reshaped for the format. *)
Lemma cell_data_returns fmt (gl : gmap string pyval) g d :
  is_Some (gl !! "mnist") → is_Some (gl !! "K") → is_Some (gl !! "keras") →
  wp (Impl.cell_data fmt)
     (λ r k',
        r = Return tt
        ∧ globals k' !! "x_train"
          = Some (VArray (if bool_decide (fmt = "channels_first")
                          then [60000; 1; 28; 28] else [60000; 28; 28; 1])
                    "float32"))
     (Kernel gl g d).
Proof.
  intros [? Hm] [? HK] [? Hk].
  unfold Impl.cell_data.
  case_bool_decide.
  all: wp_run;
    try (split; [reflexivity | cbn [globals]; wp_lookup; reflexivity]);
    try congruence.
  all: match goal with
       | H : _ ≠ _ |- _ => exfalso; apply H; reflexivity
       end.
Qed.

(** C9: the data-formatting cell binds [input_shape] in its [else]
    branch only.  From a kernel in which the name is unbound, with
    'channels_first' the cell leaves it unbound, so that reading it
    raises [NameError]; with 'channels_last' the cell, when it returns,
    has bound it to [(28, 28, 1)], and reading it returns.  Once the
    imports have run the cell does return, with either format, and has
    reshaped the images for the format. *)
Theorem C9_input_shape_is_bound_in_the_else_branch_only (k : kernel) :
  globals k !! "input_shape" = None →
  let first := Impl.cell_data "channels_first" k in
  let last := Impl.cell_data "channels_last" k in
  (globals first.2 !! "input_shape" = None
   ∧ (gload "input_shape" first.2).1 = Raise (NameError "input_shape"))
  ∧ (last.1 = Return tt →
     globals last.2 !! "input_shape" = Some (VTuple [28; 28; 1])
     ∧ (gload "input_shape" last.2).1 = Return (VTuple [28; 28; 1]))
  ∧ (is_Some (globals k !! "mnist") → is_Some (globals k !! "K") →
     is_Some (globals k !! "keras") →
     (first.1 = Return tt
      ∧ globals first.2 !! "x_train"
        = Some (VArray [60000; 1; 28; 28] "float32"))
     ∧ (last.1 = Return tt
        ∧ globals last.2 !! "x_train"
          = Some (VArray [60000; 28; 28; 1] "float32"))).
Proof.
  destruct k as [gl g d]. intros Hk first last. cbn [globals] in Hk.
  pose proof (cell_data_first_leaves_unbound gl g d Hk) as Hfirst.
  pose proof (cell_data_last_binds gl g d) as Hlast.
  unfold wp in Hfirst, Hlast. fold first in Hfirst. fold last in Hlast.
  split; [|split].
  - split; [exact Hfirst|]. unfold gload. by rewrite Hfirst.
  - intros Hr. specialize (Hlast Hr).
    split; [exact Hlast|]. unfold gload. by rewrite Hlast.
  - cbn [globals]. intros Hm HK Hkeras. split.
    + apply (cell_data_returns "channels_first" gl g d Hm HK Hkeras).
    + apply (cell_data_returns "channels_last" gl g d Hm HK Hkeras).
Qed.

Lemma C9_witness :
  let k := (Impl.cell_imports fresh).2 in
  let first := Impl.cell_data "channels_first" k in
  let last := Impl.cell_data "channels_last" k in
  (globals first.2 !! "input_shape" = None
   ∧ (gload "input_shape" first.2).1 = Raise (NameError "input_shape"))
  ∧ (last.1 = Return tt →
     globals last.2 !! "input_shape" = Some (VTuple [28; 28; 1])
     ∧ (gload "input_shape" last.2).1 = Return (VTuple [28; 28; 1]))
  ∧ (is_Some (globals k !! "mnist") → is_Some (globals k !! "K") →
     is_Some (globals k !! "keras") →
     (first.1 = Return tt
      ∧ globals first.2 !! "x_train"
        = Some (VArray [60000; 1; 28; 28] "float32"))
     ∧ (last.1 = Return tt
        ∧ globals last.2 !! "x_train"
          = Some (VArray [60000; 28; 28; 1] "float32"))).
Proof.
  apply (C9_input_shape_is_bound_in_the_else_branch_only
           (Impl.cell_imports fresh).2).
  vm_compute. reflexivity.
Defined.

(** * Graphs built on top of older nodes *)

Lemma ancestors_fresh (g : graph) (needed : list tensor) :
  (∀ t, t ∈ needed → (length g ≤ t)%nat) → ancestors g needed = [].
Proof.
  induction g as [|n g IH]; intros Hfresh; [reflexivity|].
  cbn [ancestors]. rewrite bool_decide_eq_false_2.
  - apply IH. intros t Ht. specialize (Hfresh t Ht). simpl in Hfresh. lia.
  - intros Hin. specialize (Hfresh _ Hin). simpl in Hfresh. lia.
Qed.

Lemma ancestors_shift (rel g : graph) (needed : list tensor) :
  ancestors (shift_graph (length g) rel ++ g)
    ((fun t => (t + length g)%nat) <$> needed)
  = shift_entry (length g) <$> ancestors rel needed.
Proof.
  revert needed. induction rel as [|a rel IH]; intros needed.
  - cbn [shift_graph fmap list_fmap app ancestors].
    apply ancestors_fresh. intros t Ht.
    apply list_elem_of_fmap in Ht as (x & -> & _). lia.
  - cbn [shift_graph fmap list_fmap app ancestors].
    fold (shift_graph (length g) rel).
    replace (length (shift_graph (length g) rel ++ g))
      with (length rel + length g)%nat
      by (unfold shift_graph; rewrite length_app, length_fmap; lia).
    destruct (decide (length rel ∈ needed)) as [Hin | Hout].
    + rewrite !bool_decide_eq_true_2; [| exact Hin
        | apply list_elem_of_fmap; by exists (length rel)].
      cbn [shift_node n_inputs]. rewrite <- fmap_app, IH, fmap_app.
      reflexivity.
    + rewrite !bool_decide_eq_false_2; [apply IH | exact Hout |].
      intros Hin. apply list_elem_of_fmap in Hin as (x & Hx & Hin).
      apply Hout. by replace (length rel) with x by lia.
Qed.

Lemma shapes_shift (rel g : graph) :
  shapes (shift_graph (length g) rel ++ g) = shapes rel ++ shapes g.
Proof.
  induction rel as [|a rel IH]; [reflexivity|].
  cbn [shift_graph fmap list_fmap app shapes].
  fold (shift_graph (length g) rel). rewrite IH.
  cbn [shift_node n_layer n_inputs app]. f_equal. f_equal.
  rewrite <- list_fmap_compose. apply list_fmap_ext. intros _ t _.
  cbn [compose]. f_equal.
  rewrite rev_app_distr, lookup_app_r; rewrite length_rev, shapes_length;
    [|lia].
  by replace (t + length g - length g)%nat with t by lia.
Qed.

Lemma shape_of_shift (rel g : graph) (t : tensor) :
  shape_of (shift_graph (length g) rel ++ g) (t + length g) = shape_of rel t.
Proof.
  unfold shape_of. rewrite shapes_shift. f_equal.
  rewrite rev_app_distr, lookup_app_r; rewrite length_rev, shapes_length;
    [|lia].
  by replace (t + length g - length g)%nat with t by lia.
Qed.

Lemma topology_shift (m : model) (b : nat) (layers : list (tensor * node)) :
  m_inputs m = b →
  m_nodes m = shift_entry b <$> layers →
  topology m
  = (fun p => (p.1, unnamed (n_layer p.2), n_inputs p.2)) <$> layers.
Proof.
  intros Hin Hnodes. unfold topology. rewrite Hnodes, Hin.
  rewrite <- list_fmap_compose. apply list_fmap_ext. intros _ [t n] _.
  cbn [compose shift_entry shift_node fst snd n_layer n_inputs].
  f_equal; [f_equal; lia|].
  rewrite <- list_fmap_compose. rewrite <- (list_fmap_id (n_inputs n)) at 2.
  apply list_fmap_ext. intros _ i _. cbn [compose id]. lia.
Qed.

(** * Initial kernels *)

Section Kernels.

Context {weights rng : Type}.
Variable seeded : Z → list Z → weights.
Variable unseeded : rng → list Z → weights * rng.

Lemma initial_kernels_shift (rel g : graph) (ns : list (tensor * node)) r :
  initial_kernels seeded unseeded (shift_graph (length g) rel ++ g)
    (shift_entry (length g) <$> ns) r
  = initial_kernels seeded unseeded rel ns r.
Proof.
  revert r. induction ns as [|[t n] ns IH]; intros r; [reflexivity|].
  cbn [fmap list_fmap shift_entry initial_kernels fst snd shift_node
         n_layer n_inputs].
  rewrite <- list_fmap_compose.
  rewrite (list_fmap_ext _ (shape_of rel) (n_inputs n))
    by (intros; apply shape_of_shift).
  destruct (kernel_of _ _) as [[init shape]|]; [|apply IH].
  destruct (draw _ _ _ _ _). by rewrite IH.
Qed.

(** Seeded initializers do not read the generator. *)
Lemma initial_kernels_seeded (g : graph) (ns : list (tensor * node)) r r' :
  Forall (fun p => seeded_0 (n_layer p.2) = true) ns →
  initial_kernels seeded unseeded g ns r
  = initial_kernels seeded unseeded g ns r'.
Proof.
  intros Hall. revert r r'.
  induction Hall as [|[t n] ns Hn _ IH]; intros r r'; [reflexivity|].
  cbn [initial_kernels]. simpl in Hn.
  destruct (n_layer n) as [| |? [? ?] ? ? ? [seed]| | | | | |? ? ? [seed]|];
    cbn [kernel_of]; try apply IH;
    apply bool_decide_eq_true_1 in Hn; subst seed; cbn [draw];
    f_equal; apply IH.
Qed.

Lemma resnet50_kernel_count input_shape classes r :
  length (initial_kernels seeded unseeded
            (resnet50_nodes input_shape classes)
            (ancestors (resnet50_nodes input_shape classes) [176%nat]) r)
  = 54%nat.
Proof. vm_compute. reflexivity. Qed.

End Kernels.

Lemma seeded_0_kernel (l : layer) (input : list Z) init shape :
  seeded_0 l = true → kernel_of l input = Some (init, shape) →
  init = glorot_uniform (Some 0).
Proof.
  destruct l as [| |? [? ?] ? ? ? [seed]| | | | | |? ? ? [seed]|];
    cbn [seeded_0 kernel_of]; intros Hs Hk; try discriminate Hk;
    apply bool_decide_eq_true_1 in Hs; subst seed; congruence.
Qed.

(** * The model of ResNet-implementation.ipynb *)

(** The model holds the nodes on which its output depends. *)
Lemma impl_ResNet50_body_model G input_shape classes st :
  wp (Impl.ResNet50_body G input_shape classes)
     (λ r st', ∀ m, r = Return m →
        m_nodes m = ancestors (nodes st') [m_outputs m]) st.
Proof.
  unfold Impl.ResNet50_body.
  repeat lazymatch goal with
         | |- wp (mbind _ _) _ _ =>
             apply wp_bind_any;
             [intros e0 s0 m0 Hm0; discriminate Hm0 | intros _ ?]
         end.
  unfold wp, new_model, get_nodes, load.
  cbv [mbind M_bind bind mret M_ret ret].
  destruct (locals _ !! "X_input"); [destruct (locals _ !! "X")|];
    cbn [fst snd]; intros m Hm; try discriminate Hm.
  injection Hm as <-. reflexivity.
Qed.

Lemma impl_ResNet50_nodes input_shape classes g :
  (Impl.ResNet50 Impl.block_functions input_shape classes g).2
  = shift_graph (length g) (resnet50_nodes input_shape classes) ++ g.
Proof. vm_compute. reflexivity. Qed.

Lemma impl_ResNet50_outputs input_shape classes g :
  match (Impl.ResNet50 Impl.block_functions input_shape classes g).1 with
  | Return m => Some (m_name m, m_inputs m, m_outputs m)
  | Raise _ => None
  end = Some ("ResNet50", (0 + length g)%nat, (176 + length g)%nat).
Proof. vm_compute. reflexivity. Qed.

Lemma resnet50_nodes_seeded input_shape classes :
  forallb (fun p => seeded_0 (n_layer p.2))
    (ancestors (resnet50_nodes input_shape classes) [176%nat]) = true.
Proof. vm_compute. reflexivity. Qed.

(** Every node the call creates is an ancestor of the output. *)
Lemma resnet50_nodes_count input_shape classes :
  length (resnet50_nodes input_shape classes) = 177%nat
  ∧ length (ancestors (resnet50_nodes input_shape classes) [176%nat])
    = 177%nat.
Proof. split; vm_compute; reflexivity. Qed.

(** On any graph the call returns a model of the same 177 nodes, placed
    after the nodes the graph already had. *)
Lemma impl_ResNet50_run input_shape classes g :
  ∃ m,
    Impl.ResNet50 Impl.block_functions input_shape classes g
    = (Return m,
       shift_graph (length g) (resnet50_nodes input_shape classes) ++ g)
    ∧ m_inputs m = length g
    ∧ m_outputs m = (176 + length g)%nat
    ∧ m_nodes m
      = shift_entry (length g)
          <$> ancestors (resnet50_nodes input_shape classes) [176%nat].
Proof.
  pose proof (impl_ResNet50_nodes input_shape classes g) as Hnodes.
  pose proof (impl_ResNet50_outputs input_shape classes g) as Hout.
  pose proof (impl_ResNet50_body_model Impl.block_functions input_shape
                classes (State ∅ g [])) as Hmodel.
  unfold wp in Hmodel. unfold Impl.ResNet50, def in Hnodes, Hout |- *.
  destruct (Impl.ResNet50_body _ _ _ _) as [[m|e] st']; cbn [fst snd] in *;
    [|discriminate Hout].
  exists m. injection Hout as _ Hi Ho.
  split; [by rewrite Hnodes|].
  split; [exact Hi|]. split; [exact Ho|].
  rewrite (Hmodel m eq_refl), Hnodes, Ho.
  apply (ancestors_shift _ g [176%nat]).
Qed.


(** * The sum of a residual block *)



(** * The blocks of the overview notebook *)


(** * Building the model before the blocks are defined *)

Lemma bind_returns {S A B} (m : M S A) (k : A → M S B) st a st' :
  m st = (Return a, st') → (m ≫= k) st = k a st'.
Proof. intros Hm. unfold mbind, M_bind, bind. by rewrite Hm. Qed.

Lemma bind_raises {S A B} (m : M S A) (k : A → M S B) st e st' :
  m st = (Raise e, st') → (m ≫= k) st = (Raise e, st').
Proof. intros Hm. unfold mbind, M_bind, bind. by rewrite Hm. Qed.

Ltac run_statement :=
  erewrite bind_returns by (vm_compute; reflexivity).

Lemma assign_block_unbound G dst name src rest st :
  G !! name = None →
  assign_block G dst name src rest st = (Raise (NameError name), st).
Proof.
  intros HG. unfold assign_block.
  erewrite bind_raises; [reflexivity|].
  unfold load_global. by rewrite HG.
Qed.

(** [ResNet50] looks its block functions up when it calls them: with
    [convolutional_block] unbound it builds stage 1 and raises at the
    first block call. *)
Lemma ResNet50_without_convolutional_block G input_shape classes g :
  G !! "convolutional_block" = None →
  Impl.ResNet50 G input_shape classes g
  = (Raise (NameError "convolutional_block"),
     stem_nodes input_shape (length g) ++ g).
Proof.
  intros HG. unfold Impl.ResNet50, def, Impl.ResNet50_body.
  do 6 run_statement.
  erewrite bind_raises by (by apply assign_block_unbound).
  vm_compute. reflexivity.
Qed.

Lemma ResNet50_without_residual_block G input_shape classes g :
  G !! "convolutional_block" = Some Impl.convolutional_block →
  G !! "residual_block" = None →
  Impl.ResNet50 G input_shape classes g
  = (Raise (NameError "residual_block"),
     convolutional_nodes (conv_name 2 "a") (bn_name 2 "a") (5 + length g)
       3 64 64 256 1 (6 + length g)
     ++ stem_nodes input_shape (length g) ++ g).
Proof.
  intros HG HG'. unfold Impl.ResNet50, def, Impl.ResNet50_body.
  do 6 run_statement.
  erewrite bind_returns.
  2: { unfold assign_block.
       erewrite bind_returns
         by (unfold load_global; rewrite HG; reflexivity).
       vm_compute. reflexivity. }
  erewrite bind_raises by (by apply assign_block_unbound).
  vm_compute. reflexivity.
Qed.



(** * The shapes along [ResNet50] *)

Lemma resnet50_nodes_shapes H W C classes :
  let rel := resnet50_nodes [H; W; C] classes in
  Forall (sum_agrees (shapes rel)) rel
  ∧ shape_of rel
      <$> [5; 17; 27; 37; 49; 59; 69; 79; 91; 101; 111; 121; 131; 141; 153;
           163]%nat
    = block_input_shapes H W
  ∧ shape_of rel 173 = [stage_length 5 H; stage_length 5 W; 2048]
  ∧ shape_of rel 174 = [final_length H; final_length W; 2048]
  ∧ shape_of rel 175 = [final_length H * (final_length W * (2048 * 1))]
  ∧ shape_of rel 176 = [classes]
  ∧ shape_of rel 0 = [H; W; C].
Proof.
  intros rel. unfold shape_of.
  assert (Hss : ∃ ss, shapes rel = ss
    ∧ Forall (sum_agrees ss) rel
    ∧ (fun t => default [] (rev ss !! t))
        <$> [5; 17; 27; 37; 49; 59; 69; 79; 91; 101; 111; 121; 131; 141;
             153; 163]%nat
      = block_input_shapes H W
    ∧ default [] (rev ss !! 173%nat)
      = [stage_length 5 H; stage_length 5 W; 2048]
    ∧ default [] (rev ss !! 174%nat)
      = [final_length H; final_length W; 2048]
    ∧ default [] (rev ss !! 175%nat)
      = [final_length H * (final_length W * (2048 * 1))]
    ∧ default [] (rev ss !! 176%nat) = [classes]
    ∧ default [] (rev ss !! 0%nat) = [H; W; C]).
  { subst rel. eexists. split.
    - let g := eval vm_compute in (resnet50_nodes [H; W; C] classes) in
      change (resnet50_nodes [H; W; C] classes) with g.
      cbv -[conv_output_length Z.add Z.mul Z.sub Z.div pretty String.append].
      rewrite ?conv_output_length_same, ?conv_output_length_pointwise,
        ?downsampled_1.
      reflexivity.
    - split; [|repeat split].
      let g := eval vm_compute in (resnet50_nodes [H; W; C] classes) in
      change (resnet50_nodes [H; W; C] classes) with g.
      repeat constructor. }
  destruct Hss as (ss & -> & Hrest). exact Hrest.
Qed.

Lemma ancestors_subset (g : graph) (needed : list tensor) (t : tensor)
      (n : node) :
  (t, n) ∈ ancestors g needed → n ∈ g.
Proof.
  revert needed. induction g as [|a g IH]; intros needed Hin.
  - by apply elem_of_nil in Hin.
  - cbn [ancestors] in Hin. case_bool_decide.
    + apply elem_of_app in Hin as [Hin | Hin].
      * right. by eapply IH.
      * apply list_elem_of_singleton in Hin as [= _ ->]. by left.
    + right. by eapply IH.
Qed.

Lemma sum_agrees_inputs (ss : list (list Z)) (n : node) (a b : tensor) :
  sum_agrees ss n → n_layer n = Add → a ∈ n_inputs n → b ∈ n_inputs n →
  default [] (rev ss !! a) = default [] (rev ss !! b).
Proof.
  unfold sum_agrees. intros Hn Hadd Ha Hb. rewrite Hadd in Hn.
  destruct (n_inputs n) as [|a0 rest]; [by apply elem_of_nil in Ha|].
  assert (Hall : ∀ c, c ∈ a0 :: rest →
                   default [] (rev ss !! c) = default [] (rev ss !! a0)).
  { intros c Hc. apply elem_of_cons in Hc as [-> | Hc]; [reflexivity|].
    by apply (proj1 (Forall_forall _ _) Hn). }
  by rewrite (Hall a Ha), (Hall b Hb).
Qed.

Lemma layers_shift (b : nat) (layers : list (tensor * node)) :
  (fun p => n_layer p.2) <$> (shift_entry b <$> layers)
  = (fun p => n_layer p.2) <$> layers.
Proof. rewrite <- list_fmap_compose. by apply list_fmap_ext. Qed.


Lemma downsampled_positive (x : Z) : 0 < downsampled x 2 ↔ 0 < x.
Proof. unfold downsampled. Z.div_mod_to_equations. lia. Qed.

Lemma final_length_positive (n : Z) : 0 < final_length n ↔ 5 ≤ n.
Proof.
  unfold final_length, stage_length.
  replace (conv_output_length (Nat.iter (5 - 2) (λ x, downsampled x 2)
             (pool_length (stem_length n))) 2 same 2)
    with (Nat.iter 4 (λ x, downsampled x 2) (pool_length (stem_length n)))
    by reflexivity.
  simpl Nat.iter. rewrite !downsampled_positive.
  unfold pool_length, stem_length, conv_output_length.
  Z.div_mod_to_equations. lia.
Qed.


(** * The layers of the model *)

Lemma layer_names_shift (b : nat) (layers : list (tensor * node)) :
  omap (fun p => layer_name (n_layer p.2)) (shift_entry b <$> layers)
  = omap (fun p => layer_name (n_layer p.2)) layers.
Proof.
  induction layers as [|[t n] layers IH]; [reflexivity|].
  cbn [fmap list_fmap omap list_omap shift_entry shift_node fst snd n_layer].
  by rewrite <- IH.
Qed.

Lemma not_elem_of_other_initial (c : Ascii.ascii) (rest : string)
      (l : list string) :
  forallb (fun s => negb (starts_with c s)) l = true → String c rest ∉ l.
Proof.
  induction l as [|s l IH]; intros Hall Hin.
  - by apply elem_of_nil in Hin.
  - cbn [forallb] in Hall. apply andb_prop in Hall as [Hs Hl].
    apply elem_of_cons in Hin as [<- | Hin]; [|by apply IH].
    cbn [starts_with] in Hs. by rewrite bool_decide_eq_true_2 in Hs.
Qed.

(** The names [ResNet50] gives on an empty graph: the 106 names of the
    convolutions and batch normalizations are distinct and none starts
    with the [f] of ['fc' + str(classes)]. *)
Lemma resnet50_layer_names input_shape classes :
  let names := omap (fun p => layer_name (n_layer p.2))
                 (ancestors (resnet50_nodes input_shape classes) [176%nat]) in
  NoDup names ∧ length names = 107%nat.
Proof.
  intros names. split; [|vm_compute; reflexivity].
  subst names. rewrite <- reverse_Permutation.
  let l := eval vm_compute in
    (reverse (omap (fun p => layer_name (n_layer p.2))
                (ancestors (resnet50_nodes input_shape classes) [176%nat]))) in
  change (reverse (omap (fun p => layer_name (n_layer p.2))
                     (ancestors (resnet50_nodes input_shape classes)
                        [176%nat]))) with l.
  apply NoDup_cons. split.
  - apply not_elem_of_other_initial. vm_compute. reflexivity.
  - compute_done.
Qed.


Lemma main_path_fresh (g : graph) (t : tensor) :
  (length g ≤ t)%nat → main_path g t = [].
Proof.
  induction g as [|n g IH]; intros Ht; [reflexivity|].
  cbn [main_path]. simpl in Ht.
  rewrite bool_decide_eq_false_2 by lia. apply IH. lia.
Qed.

Lemma main_path_shift (rel g : graph) (t : tensor) :
  main_path (shift_graph (length g) rel ++ g) (t + length g)
  = main_path rel t.
Proof.
  revert t. induction rel as [|a rel IH]; intros t.
  - cbn [shift_graph fmap list_fmap app main_path].
    apply main_path_fresh. lia.
  - cbn [shift_graph fmap list_fmap app main_path].
    fold (shift_graph (length g) rel).
    replace (length (shift_graph (length g) rel ++ g))
      with (length rel + length g)%nat
      by (unfold shift_graph; rewrite length_app, length_fmap; lia).
    destruct (decide (t = length rel)) as [-> | Hne].
    + rewrite !bool_decide_eq_true_2 by reflexivity.
      cbn [shift_node n_layer n_inputs]. f_equal.
      destruct (n_inputs a) as [|a0 rest]; [reflexivity|].
      cbn [fmap list_fmap]. apply IH.
    + rewrite !bool_decide_eq_false_2 by lia. apply IH.
Qed.

Lemma resnet50_main_path input_shape classes :
  length (filter (fun l => weighted l = true)
            (main_path (resnet50_nodes input_shape classes) 176)) = 50%nat.
Proof. vm_compute. reflexivity. Qed.


(** * Cells run by hand *)

Lemma wp_display v Q gl g d :
  Q (Return tt) (Kernel gl g (d ++ [v])) → wp (display v) Q (Kernel gl g d).
Proof. auto. Qed.

Lemma wp_call_model_function f input_shape classes
      (Q : outcome model → kernel → Prop) gl g d :
  (∀ r g', Q r (Kernel gl g' d)) →
  wp (call_model_function f input_shape classes) Q (Kernel gl g d).
Proof.
  intros HQ. unfold wp, call_model_function.
  destruct f; try apply HQ.
  cbn [globals k_graph displayed]. destruct (fn _ _ _ _). apply HQ.
Qed.

Lemma wp_fit m x y (Q : outcome pyval → kernel → Prop) k :
  (∀ r, Q r k) → wp (fit m x y) Q k.
Proof. intros HQ. unfold wp, fit. case_bool_decide; apply HQ. Qed.

Ltac wp_cell_step :=
  lazymatch goal with
  | |- wp (mbind _ _) _ _ => apply wp_bind
  | |- wp (mret _) _ _ => apply wp_ret
  | |- wp (raise _) _ _ => apply wp_raise
  | |- wp (gstore _ _) _ _ => apply wp_gstore
  | |- wp (gload _) _ _ => apply wp_gload; wp_lookup
  | |- wp (display _) _ _ => apply wp_display
  | |- wp (fit _ _ _) _ _ => apply wp_fit; intros ?
  | |- wp (call_model_function _ _ _) _ _ =>
      apply wp_call_model_function; intros ? ?
  | |- wp (gload_int _) _ _ => unfold gload_int
  | |- wp (gload_array _) _ _ => unfold gload_array
  | |- wp (gload_model _) _ _ => unfold gload_model
  | |- wp (import_as _ _) _ _ => unfold import_as
  | |- wp (from_import _ _) _ _ => unfold from_import; cbn [mapM]
  | |- wp (history_item _ _) _ _ => unfold history_item
  | |- wp (Impl.reshape_global _ _) _ _ => unfold Impl.reshape_global
  | |- wp (dim0 _) _ _ => unfold dim0
  | |- wp (reshape _ _) _ _ => unfold reshape
  | |- wp (idiv _) _ _ => unfold idiv
  | |- wp (if bool_decide _ then _ else _) _ _ => case_bool_decide
  | |- wp (match ?v with _ => _ end) _ _ => destruct v
  | |- match ?gl !! ?x with _ => _ end =>
      let E := fresh "E" in destruct (gl !! x) eqn:E
  | |- match ?r with Return _ => _ | Raise _ => _ end => destruct r
  end; cbv beta iota; cbn [fst snd].

Ltac keeps :=
  intros gl g d Hk;
  unfold mnist_load_data, to_categorical; cbn [fst snd];
  repeat wp_cell_step; cbn [globals]; wp_lookup;
  first [exact Hk | congruence].

Lemma keeps_imports : keeps_history_unbound Impl.cell_imports.
Proof. unfold Impl.cell_imports. keeps. Qed.

Lemma keeps_data fmt : keeps_history_unbound (Impl.cell_data fmt).
Proof. unfold Impl.cell_data. keeps. Qed.

Lemma keeps_shape : keeps_history_unbound Impl.cell_shape.
Proof. unfold Impl.cell_shape. keeps. Qed.

Lemma keeps_defs :
  keeps_history_unbound Impl.cell_residual_block
  ∧ keeps_history_unbound Impl.cell_convolutional_block
  ∧ keeps_history_unbound Impl.cell_ResNet50.
Proof.
  repeat split;
    unfold Impl.cell_residual_block, Impl.cell_convolutional_block,
      Impl.cell_ResNet50;
    keeps.
Qed.

Lemma keeps_model : keeps_history_unbound Impl.cell_model.
Proof. unfold Impl.cell_model. keeps. Qed.

Lemma keeps_fit : keeps_history_unbound Impl.cell_fit.
Proof. unfold Impl.cell_fit. keeps. Qed.

Lemma keeps_plots :
  keeps_history_unbound Impl.cell_plot_accuracy
  ∧ keeps_history_unbound Impl.cell_plot_loss.
Proof.
  split; unfold Impl.cell_plot_accuracy, Impl.cell_plot_loss; keeps.
Qed.

Lemma notebook_keeps_history_unbound fmt c :
  c ∈ Impl.notebook fmt → keeps_history_unbound c.
Proof.
  unfold Impl.notebook. intros Hc.
  repeat (apply elem_of_cons in Hc as [-> | Hc]);
    [apply keeps_imports | apply keeps_data | apply keeps_shape
    | apply keeps_defs | apply keeps_defs | apply keeps_defs
    | apply keeps_model | apply keeps_fit | apply keeps_plots
    | apply keeps_plots | by apply elem_of_nil in Hc].
Qed.

(** X8: no way of running the cells of [ResNet-implementation.ipynb]
    binds [history].  Start from any kernel in which the name is unbound
    and run any cells of the notebook, in any order, any number of
    times, going on after a cell that raised: [history] is still
    unbound, and each of the two plotting cells, run next, raises
    [NameError] (on [plt] if [matplotlib.pyplot] was not imported, on
    [history] otherwise). *)
Theorem X8_history_unbound_in_any_order fmt (cells : list (M kernel unit))
        (k : kernel) :
  (∀ c, c ∈ cells → c ∈ Impl.notebook fmt) →
  globals k !! "history" = None →
  globals (run_by_hand cells k) !! "history" = None
  ∧ (∃ e, (Impl.cell_plot_accuracy (run_by_hand cells k)).1 = Raise e
          ∧ is_NameError e = true)
  ∧ (∃ e, (Impl.cell_plot_loss (run_by_hand cells k)).1 = Raise e
          ∧ is_NameError e = true).
Proof.
  intros Hcells Hk.
  assert (Hinv : globals (run_by_hand cells k) !! "history" = None).
  { revert k Hk. induction cells as [|c cells IH]; intros k Hk; [exact Hk|].
    cbn [run_by_hand foldl]. apply IH.
    - intros c' Hc'. apply Hcells. by right.
    - destruct k as [gl g d].
      apply (notebook_keeps_history_unbound fmt c); [|exact Hk].
      apply Hcells. by left. }
  split; [exact Hinv|].
  destruct (run_by_hand cells k) as [gl g d]. cbn [globals] in Hinv.
  split.
  - unfold Impl.cell_plot_accuracy.
    cbv [mbind M_bind bind gload globals].
    destruct (gl !! "plt"); cbn [fst]; [rewrite Hinv|]; by eexists.
  - unfold Impl.cell_plot_loss.
    cbv [mbind M_bind bind gload globals].
    destruct (gl !! "plt"); cbn [fst]; [rewrite Hinv|]; by eexists.
Qed.

(** The training cell run first, then the imports. *)
Lemma X8_witness :
  let cells := [Impl.cell_fit; Impl.cell_imports] in
  (∀ c, c ∈ cells → c ∈ Impl.notebook "channels_last")
  ∧ globals fresh !! "history" = None
  ∧ globals (run_by_hand cells fresh) !! "history" = None.
Proof.
  assert (Hcells : ∀ c, c ∈ [Impl.cell_fit; Impl.cell_imports] →
                        c ∈ Impl.notebook "channels_last").
  { intros c Hc. unfold Impl.notebook.
    apply elem_of_cons in Hc as [-> | Hc].
    - do 7 apply list_elem_of_further. apply list_elem_of_here.
    - apply elem_of_cons in Hc as [-> | Hc].
      + apply list_elem_of_here.
      + by apply elem_of_nil in Hc. }
  split; [exact Hcells|]. split; [reflexivity|].
  apply (X8_history_unbound_in_any_order "channels_last"
           [Impl.cell_fit; Impl.cell_imports] fresh Hcells eq_refl).
Defined.
